(** * snp_forecast.py: the S&P500 daily forecast strategy

    A shallow embedding of [SPYDailyForecastStrategy] (Automated
    Trading/snp_forecast.py): the construction of the forecast model and
    [calculate_signals], the handler that turns market events into LONG and
    EXIT signals.

    Python objects are records, attribute assignment is a record update in an
    explicit state, exceptions are the [Raise] outcome of a small state and
    exception monad, and the collaborators the strategy calls (the lagged
    series builder, the classifier, the data handler) are functions supplied
    from outside whose calls are logged. *)

From Stdlib Require Import ZArith List String Bool Lia.
From Stdlib Require Import Floats.
Import ListNotations.

Local Open Scope string_scope.
Local Open Scope Z_scope.
Local Open Scope list_scope.

(** ** Python values and outcomes *)

Module Py.

(** The exceptions that can leave the strategy's methods.  [IndexError] is
    raised by subscripting past the end of a sequence, [KeyError] by
    selecting a column a frame does not have, [TrainingError] by the
    classifier, and [Raised] stands for whatever else a collaborator
    raises. *)
Inductive exn : Type :=
| IndexError
| KeyError (key : string)
| TrainingError
| Raised (what : string).

Inductive result (A : Type) : Type :=
| Ok (a : A)
| Raise (e : exn).
Arguments Ok {A} a.
Arguments Raise {A} e.

(** [s[i]] for a non-negative literal index. *)
Definition getitem {A} (s : list A) (i : nat) : result A :=
  match nth_error s i with
  | Some a => Ok a
  | None => Raise IndexError
  end.

(** Computations over a mutable state [S].  What was written to the state
    before an exception is raised stays written. *)
Definition M (S A : Type) : Type := S -> result A * S.

Definition ret {S A} (a : A) : M S A := fun s => (Ok a, s).

Definition bind {S A B} (m : M S A) (k : A -> M S B) : M S B :=
  fun s =>
    match m s with
    | (Ok a, s') => k a s'
    | (Raise e, s') => (Raise e, s')
    end.

Definition gets {S A} (f : S -> A) : M S A := fun s => (Ok (f s), s).

Definition modify {S} (f : S -> S) : M S unit := fun s => (Ok tt, f s).

Definition lift {S A} (r : result A) : M S A := fun s => (r, s).

Definition when {S} (c : bool) (m : M S unit) : M S unit :=
  if c then m else ret tt.

End Py.
Import Py.

Declare Scope py_scope.
Delimit Scope py_scope with py.
Notation "x <- m ;; k" := (bind m (fun x => k))
  (at level 61, m at next level, right associativity) : py_scope.
Notation "m ;; k" := (bind m (fun _ => k))
  (at level 61, right associativity) : py_scope.
Local Open Scope py_scope.

(** ** datetime *)

(** [dt.datetime(year, month, day)] with the time of day in microseconds;
    ordered as Python orders naive datetimes, field by field. *)
Record datetime : Type := mk_datetime {
  year : Z;
  month : Z;
  day : Z;
  microsecond_of_day : Z
}.

Definition dt_datetime (y m d : Z) : datetime := mk_datetime y m d 0.

Definition lex (c : comparison) (k : comparison) : comparison :=
  match c with Eq => k | _ => c end.

Definition datetime_compare (a b : datetime) : comparison :=
  lex (year a ?= year b)
    (lex (month a ?= month b)
       (lex (day a ?= day b)
          (microsecond_of_day a ?= microsecond_of_day b))).

(** [a < b] and [a >= b] on datetimes. *)
Definition datetime_lt (a b : datetime) : bool :=
  match datetime_compare a b with Lt => true | _ => false end.

Definition datetime_ge (a b : datetime) : bool :=
  match datetime_compare a b with Lt => false | _ => true end.

(** ** pandas frames *)

(** A frame indexed by date: the column labels and, per index entry, the
    cells in column order. *)
Record DataFrame : Type := mk_frame {
  columns : list string;
  rows : list (datetime * list float)
}.

Fixpoint column_position (name : string) (cols : list string) : option nat :=
  match cols with
  | [] => None
  | c :: cols' =>
      if String.eqb c name then Some O
      else option_map S (column_position name cols')
  end.

(** The positions of the wanted labels; the first label the frame lacks is
    the [KeyError]. *)
Fixpoint column_positions (names cols : list string) : result (list nat) :=
  match names with
  | [] => Ok []
  | n :: names' =>
      match column_position n cols with
      | None => Raise (KeyError n)
      | Some i =>
          match column_positions names' cols with
          | Ok ps => Ok (i :: ps)
          | Raise e => Raise e
          end
      end
  end.

(** A cell a row does not hold reads as NaN, as pandas pads. *)
Definition cell (cells : list float) (i : nat) : float :=
  nth i cells nan.

Definition project (ps : list nat) (r : datetime * list float)
  : datetime * list float :=
  (fst r, map (cell (snd r)) ps).

(** [frame[[name, ...]]] *)
Definition select_columns (names : list string) (frame : DataFrame)
  : result DataFrame :=
  match column_positions names (columns frame) with
  | Ok ps => Ok (mk_frame names (map (project ps) (rows frame)))
  | Raise e => Raise e
  end.

(** [frame[frame.index < d]] and [frame[frame.index >= d]] *)
Definition index_lt (d : datetime) (frame : DataFrame) : DataFrame :=
  mk_frame (columns frame)
    (filter (fun r => datetime_lt (fst r) d) (rows frame)).

Definition index_ge (d : datetime) (frame : DataFrame) : DataFrame :=
  mk_frame (columns frame)
    (filter (fun r => datetime_ge (fst r) d) (rows frame)).

(** ** Events, collaborators and the call log *)

(** An event of the queue; the strategy reads only its [type]. *)
Record Event : Type := mk_event {
  type : string
}.

(** Modelled from the spec: event.SignalEvent is imported, not defined, by
    snp_forecast.py.  The spec gives its five fields in the order of the
    constructor's arguments: strengthOrSize, symbol, timestamp, direction,
    weight. *)
Record SignalEvent : Type := mk_SignalEvent {
  strengthOrSize : Z;
  symbol : string;
  timestamp : datetime;
  direction : string;
  weight : float
}.

(** The fitted classifier: [predict] on a matrix of one row gives the class
    label of that row, or raises. *)
Record Model : Type := mk_model {
  predict : list (list float) -> result float
}.

(** What construction calls: [Price_Forecaster_ML.create_lagged_series] and
    [QDA().fit]. *)
Record Builders : Type := mk_builders {
  create_lagged_series :
    string -> datetime -> datetime -> Z -> result DataFrame;
  fit : DataFrame -> DataFrame -> result Model
}.

(** [bars.get_latest_bars_values(symbol, val_type, N)] as the data handler
    answers it when an event is handled. *)
Definition DataHandler : Type := string -> string -> Z -> result (list float).

(** The calls made to collaborators, in the order they are made. *)
Inductive Call : Type :=
| Call_create_lagged_series (sym : string) (start_date end_date : datetime)
    (lags : Z)
| Call_fit (X y : DataFrame)
| Call_get_latest_bars_values (sym val_type : string) (N : Z)
| Call_predict (X : list (list float)).

(** ** The strategy object *)

Record Strategy : Type := mk_strategy {
  symbol_list : list string;
  datetime_now : datetime;
  model_start_date : datetime;
  model_end_date : datetime;
  model_start_test_date : datetime;
  long_market : bool;
  short_market : bool;
  bar_index : Z;
  model : Model
}.

Definition set_long_market (v : bool) (s : Strategy) : Strategy :=
  mk_strategy (symbol_list s) (datetime_now s) (model_start_date s)
    (model_end_date s) (model_start_test_date s) v (short_market s)
    (bar_index s) (model s).

Definition set_bar_index (v : Z) (s : Strategy) : Strategy :=
  mk_strategy (symbol_list s) (datetime_now s) (model_start_date s)
    (model_end_date s) (model_start_test_date s) (long_market s)
    (short_market s) v (model s).

(** ** Construction *)

(** A logged call during construction, where the state is the call log. *)
Definition log_call {A} (c : Call) (r : result A) : M (list Call) A :=
  fun log => (r, log ++ [c]).

(** [create_symbol_forecast_model] runs before [self.model] is assigned; it
    reads [self.symbol_list] and the three model dates. *)
Definition create_symbol_forecast_model (b : Builders)
    (symbol_list : list string)
    (model_start_date model_end_date model_start_test_date : datetime)
  : M (list Call) Model :=
  sym <- lift (getitem symbol_list 0) ;;
  snpret <- log_call
    (Call_create_lagged_series sym model_start_date model_end_date 5)
    (create_lagged_series b sym model_start_date model_end_date 5) ;;
  X <- lift (select_columns ["Lag1"; "Lag2"] snpret) ;;
  y <- lift (select_columns ["Direction"] snpret) ;;
  let start_test := model_start_test_date in
  let X_train := index_lt start_test X in
  let X_test := index_ge start_test X in
  let y_train := index_lt start_test y in
  let y_test := index_ge start_test y in
  model <- log_call (Call_fit X_train y_train) (fit b X_train y_train) ;;
  ret model.

(** [SPYDailyForecastStrategy(bars, events)]: [bars_symbol_list] is
    [bars.symbol_list] and [utcnow] what [dt.datetime.utcnow()] returns.  An
    exception leaves no strategy object. *)
Definition __init__ (b : Builders) (bars_symbol_list : list string)
    (utcnow : datetime) : M (list Call) Strategy :=
  let symbol_list := bars_symbol_list in
  let datetime_now := utcnow in
  let model_start_date := dt_datetime 2016 1 10 in
  let model_end_date := dt_datetime 2017 12 31 in
  let model_start_test_date := dt_datetime 2017 1 1 in
  let long_market := false in
  let short_market := false in
  let bar_index := 0 in
  model <- create_symbol_forecast_model b symbol_list model_start_date
    model_end_date model_start_test_date ;;
  ret (mk_strategy symbol_list datetime_now model_start_date model_end_date
         model_start_test_date long_market short_market bar_index model).

(** ** Handling an event *)

(** The strategy, the signals it has put on the event queue (oldest first)
    and the calls it has made. *)
Record World : Type := mk_world {
  self : Strategy;
  events : list SignalEvent;
  calls : list Call
}.

Definition update_self (f : Strategy -> Strategy) : M World unit :=
  modify (fun w => mk_world (f (self w)) (events w) (calls w)).

(** [self.events.put(signal)]: the queue is unbounded, so [put] appends and
    returns. *)
Definition events_put (signal : SignalEvent) : M World unit :=
  modify (fun w => mk_world (self w) (events w ++ [signal]) (calls w)).

Definition call {A} (c : Call) (r : result A) : M World A :=
  fun w => (r, mk_world (self w) (events w) (calls w ++ [c])).

Definition calculate_signals (bars : DataHandler) (event : Event)
  : M World unit :=
  sym <- (l <- gets (fun w => symbol_list (self w)) ;; lift (getitem l 0)) ;;
  cur_date <- gets (fun w => datetime_now (self w)) ;;
  when (String.eqb (type event) "MARKET") (
    update_self (fun s => set_bar_index (bar_index s + 1) s) ;;
    bar_index <- gets (fun w => bar_index (self w)) ;;
    when (5 <? bar_index) (
      sym0 <- (l <- gets (fun w => symbol_list (self w)) ;;
               lift (getitem l 0)) ;;
      lags <- call (Call_get_latest_bars_values sym0 "returns" 3)
                (bars sym0 "returns" 3) ;;
      lag1 <- lift (getitem lags 1) ;;
      lag2 <- lift (getitem lags 2) ;;
      let pred_series :=
        [("Lag1", (lag1 * 100.0)%float); ("Lag2", (lag2 * 100.0)%float)] in
      let pred_reshape := [map snd pred_series] in
      m <- gets (fun w => model (self w)) ;;
      pred <- call (Call_predict pred_reshape) (predict m pred_reshape) ;;
      long <- gets (fun w => long_market (self w)) ;;
      when ((0 <? pred)%float && negb long) (
        update_self (set_long_market true) ;;
        let signal := mk_SignalEvent 1 sym cur_date "LONG" 1.0 in
        events_put signal) ;;
      long <- gets (fun w => long_market (self w)) ;;
      when ((pred <? 0)%float && long) (
        update_self (set_long_market false) ;;
        let signal := mk_SignalEvent 1 sym cur_date "EXIT" 1.0 in
        events_put signal))).

(** ** Runs *)

(** The backtest hands the strategy one event after another, each with the
    data handler as it stands at that event; an exception ends the run. *)
Fixpoint run (feed : list (DataHandler * Event)) : M World unit :=
  match feed with
  | [] => ret tt
  | (bars, event) :: rest => calculate_signals bars event ;; run rest
  end.

(** The worlds a strategy can be in: just constructed, with nothing put on
    the queue yet, or after handling one more event. *)
Inductive reachable : World -> Prop :=
| reachable_init b syms utcnow s log :
    __init__ b syms utcnow [] = (Ok s, log) ->
    reachable (mk_world s [] log)
| reachable_step bars event w :
    reachable w ->
    reachable (snd (calculate_signals bars event w)).

(** ** The vocabulary of the specification *)

Inductive PositionState : Type := FLAT | LONG.

Definition position (s : Strategy) : PositionState :=
  if long_market s then LONG else FLAT.

(** The warm-up gate of the specification: true once the event count exceeds
    the threshold 5. *)
Definition shouldPredict (eventCount : Z) : bool := 5 <? eventCount.

(** The transition table of the specification, row by row: in state [st],
    on prediction [p], the direction of the signal to emit (if any) and the
    next state. *)
Inductive table_row
  : PositionState -> float -> option string -> PositionState -> Prop :=
| row_flat_positive p :
    (0 <? p)%float = true -> table_row FLAT p (Some "LONG") LONG
| row_flat_not_positive p :
    (p <=? 0)%float = true -> table_row FLAT p None FLAT
| row_long_negative p :
    (p <? 0)%float = true -> table_row LONG p (Some "EXIT") FLAT
| row_long_not_negative p :
    (0 <=? p)%float = true -> table_row LONG p None LONG.

(** The sign of a prediction, as the two comparisons of the code see it. *)
Definition sign (p : float) : Z :=
  if (0 <? p)%float then 1 else if (p <? 0)%float then -1 else 0.

Definition is_market (event : Event) : bool := String.eqb (type event) "MARKET".

Definition directions (evs : list SignalEvent) : list string :=
  map direction evs.

(** The directions alternate, from a position that is long or not: an exit
    is expected when long, an entry when not. *)
Fixpoint alternates (long : bool) (ds : list string) : bool :=
  match ds with
  | [] => true
  | d :: ds' =>
      String.eqb d (if long then "EXIT" else "LONG")
      && alternates (negb long) ds'
  end.

(** The number of market events in a feed. *)
Definition market_count (feed : list (DataHandler * Event)) : Z :=
  Z.of_nat (List.length (filter (fun be => is_market (snd be)) feed)).

Definition is_query (c : Call) : bool :=
  match c with
  | Call_get_latest_bars_values _ _ _ | Call_predict _ => true
  | _ => false
  end.

(** What the two guarded blocks at the end of [calculate_signals] do to the
    position flag, and the directions of the signals they put, read off the
    code: the second guard tests the flag the first one may have set. *)
Definition decide (long : bool) (pred : float) : bool * list string :=
  let '(long1, out1) :=
    if (0 <? pred)%float && negb long then (true, ["LONG"])
    else (long, []) in
  let '(long2, out2) :=
    if (pred <? 0)%float && long1 then (false, ["EXIT"])
    else (long1, []) in
  (long2, out1 ++ out2).

Definition signal_of (s : Strategy) (sym d : string) : SignalEvent :=
  mk_SignalEvent 1 sym (datetime_now s) d 1.0.

(** The signals put on the queue between two worlds. *)
Definition emitted (w w' : World) : list SignalEvent :=
  skipn (List.length (events w)) (events w').

(** The world after one more market event has been counted and [cs] has been
    added to the call log. *)
Definition counted (cs : list Call) (w : World) : World :=
  mk_world (set_bar_index (bar_index (self w) + 1) (self w)) (events w)
    (calls w ++ cs).

(** The three ways a call can end: nothing touched; the event counted and
    possibly the collaborators asked, but nothing decided; or a prediction
    [p] obtained and acted upon. *)
Inductive handled (event : Event) (w : World)
  : result unit -> World -> Prop :=
| handled_idle r :
    handled event w r w
| handled_quiet r cs :
    is_market event = true ->
    (shouldPredict (bar_index (self w) + 1) = false -> cs = []) ->
    Forall (fun c => is_query c = true) cs ->
    handled event w r (counted cs w)
| handled_decided sym tl p cs :
    is_market event = true ->
    symbol_list (self w) = sym :: tl ->
    shouldPredict (bar_index (self w) + 1) = true ->
    Forall (fun c => is_query c = true) cs ->
    handled event w (Ok tt)
      (mk_world
         (set_long_market (fst (decide (long_market (self w)) p))
            (set_bar_index (bar_index (self w) + 1) (self w)))
         (events w
          ++ map (signal_of (self w) sym)
               (snd (decide (long_market (self w)) p)))
         (calls w ++ cs)).

(** ** Invariants of a run *)

(** As long as the counter has not passed 5, nothing has been put on the
    queue and neither the data handler nor the classifier has been asked. *)
Definition gate_closed (w : World) : Prop :=
  bar_index (self w) <= 5 ->
  events w = [] /\ filter is_query (calls w) = [].

(** The direction expected next. *)
Definition expected (long : bool) : string :=
  if long then "EXIT" else "LONG".

(** The signals put so far alternate from a flat start, and the strategy is
    long exactly when their number is odd. *)
Definition alternating (w : World) : Prop :=
  alternates false (directions (events w)) = true
  /\ long_market (self w) = Nat.odd (List.length (events w)).

(** Every signal put so far carries the timestamp the strategy holds. *)
Definition stamped (t : datetime) (w : World) : Prop :=
  datetime_now (self w) = t
  /\ Forall (fun sg => timestamp sg = t) (events w).

(** ** The outcome of a call, path by path *)

(** The features handed to the classifier for the returns [lag1] and
    [lag2]. *)
Definition features (lag1 lag2 : float) : list (list float) :=
  [[(lag1 * 100.0)%float; (lag2 * 100.0)%float]].

(** The paths through [calculate_signals], each with the conditions under
    which it is taken and the result and world it ends in. *)
Inductive outcome (bars : DataHandler) (event : Event) (w : World)
  : result unit * World -> Prop :=
| outcome_no_symbol :
    symbol_list (self w) = [] ->
    outcome bars event w (Raise IndexError, w)
| outcome_not_market sym tl :
    symbol_list (self w) = sym :: tl ->
    is_market event = false ->
    outcome bars event w (Ok tt, w)
| outcome_warm_up sym tl :
    symbol_list (self w) = sym :: tl ->
    is_market event = true ->
    shouldPredict (bar_index (self w) + 1) = false ->
    outcome bars event w (Ok tt, counted [] w)
| outcome_bars_raise sym tl e :
    symbol_list (self w) = sym :: tl ->
    is_market event = true ->
    shouldPredict (bar_index (self w) + 1) = true ->
    bars sym "returns" 3 = Raise e ->
    outcome bars event w
      (Raise e, counted [Call_get_latest_bars_values sym "returns" 3] w)
| outcome_short sym tl lags :
    symbol_list (self w) = sym :: tl ->
    is_market event = true ->
    shouldPredict (bar_index (self w) + 1) = true ->
    bars sym "returns" 3 = Ok lags ->
    (List.length lags < 3)%nat ->
    outcome bars event w
      (Raise IndexError,
       counted [Call_get_latest_bars_values sym "returns" 3] w)
| outcome_predict_raise sym tl l0 l1 l2 ls e :
    symbol_list (self w) = sym :: tl ->
    is_market event = true ->
    shouldPredict (bar_index (self w) + 1) = true ->
    bars sym "returns" 3 = Ok (l0 :: l1 :: l2 :: ls) ->
    predict (model (self w)) (features l1 l2) = Raise e ->
    outcome bars event w
      (Raise e,
       counted [Call_get_latest_bars_values sym "returns" 3;
                Call_predict (features l1 l2)] w)
| outcome_predict sym tl l0 l1 l2 ls p :
    symbol_list (self w) = sym :: tl ->
    is_market event = true ->
    shouldPredict (bar_index (self w) + 1) = true ->
    bars sym "returns" 3 = Ok (l0 :: l1 :: l2 :: ls) ->
    predict (model (self w)) (features l1 l2) = Ok p ->
    outcome bars event w
      (Ok tt,
       mk_world
         (set_long_market (fst (decide (long_market (self w)) p))
            (set_bar_index (bar_index (self w) + 1) (self w)))
         (events w
          ++ map (signal_of (self w) sym)
               (snd (decide (long_market (self w)) p)))
         (calls w
          ++ [Call_get_latest_bars_values sym "returns" 3;
              Call_predict (features l1 l2)])).

(** What [__init__] sets and [calculate_signals] never assigns. *)
Definition same_configuration (s s' : Strategy) : Prop :=
  symbol_list s' = symbol_list s
  /\ datetime_now s' = datetime_now s
  /\ model_start_date s' = model_start_date s
  /\ model_end_date s' = model_end_date s
  /\ model_start_test_date s' = model_start_test_date s
  /\ short_market s' = short_market s
  /\ model s' = model s.

(** A signal as the strategy builds it for the symbol [sym]. *)
Definition strategy_signal (sym : string) (sg : SignalEvent) : Prop :=
  strengthOrSize sg = 1
  /\ symbol sg = sym
  /\ weight sg = 1.0%float
  /\ (direction sg = "LONG" \/ direction sg = "EXIT").

(** A frame whose rows are in date order: no row is dated before an earlier
    row. *)
Fixpoint in_date_order (rs : list (datetime * list float)) : bool :=
  match rs with
  | [] => true
  | r :: rs' =>
      forallb (fun r' => datetime_ge (fst r') (fst r)) rs'
      && in_date_order rs'
  end.

(** ** The classifier *)

(** The class labels of a one-column frame, and whether they are all the same
    class. *)
Definition labels (y : DataFrame) : list float :=
  List.concat (map snd (rows y)).

Definition single_class (ls : list float) : bool :=
  match ls with
  | [] => true
  | l :: ls' => forallb (PrimFloat.eqb l) ls'
  end.

Definition degenerate (X y : DataFrame) : bool :=
  match rows X with
  | [] => true
  | _ :: _ => single_class (labels y)
  end.

(** Modelled from the spec: the classifier (sklearn's
    QuadraticDiscriminantAnalysis) is imported, not defined, by
    snp_forecast.py.  The spec says of fitting that it fails with
    TrainingError if the train partition is empty or the labels are
    degenerate (a single class only); what the fitted model predicts is left
    to [rule]. *)
Definition QDA_fit (rule : DataFrame -> DataFrame -> Model)
    (X y : DataFrame) : result Model :=
  if degenerate X y then Raise TrainingError else Ok (rule X y).

(** ** A concrete strategy *)

(** A classifier that always predicts [p], a strategy for SPY constructed at
    21:17:27 UTC on 6 May 2020, and data handlers that hold three returns and
    two. *)
Definition constant_model (p : float) : Model :=
  mk_model (fun _ => Ok p).

Definition construction_time : datetime :=
  mk_datetime 2020 5 6 76647000000.

Definition spy (long : bool) (count : Z) (m : Model) : Strategy :=
  mk_strategy ["SPY"] construction_time
    (dt_datetime 2016 1 10) (dt_datetime 2017 12 31) (dt_datetime 2017 1 1)
    long false count m.

Definition three_returns : DataHandler :=
  fun _ _ _ => Ok [0.5; -0.25; 0.125]%float.

Definition two_returns : DataHandler :=
  fun _ _ _ => Ok [0.5; -0.25]%float.

Definition market_event : Event := mk_event "MARKET".

Definition signal_event : Event := mk_event "SIGNAL".

(** A lagged series of three days around the test cutoff, and builders that
    return it and fit a classifier that always predicts [p]. *)
Definition three_days : DataFrame :=
  mk_frame ["Today"; "Lag1"; "Lag2"; "Lag3"; "Lag4"; "Lag5"; "Direction"]
    [(dt_datetime 2016 12 29, [0.5; -0.25; 0.125; 1; -1; 2; 1]%float);
     (dt_datetime 2016 12 30, [-1.5; 0.5; -0.25; 0.125; 1; -1; -1]%float);
     (dt_datetime 2017 1 3, [0.75; -1.5; 0.5; -0.25; 0.125; 1; 1]%float)].

Definition constant_builders (p : float) : Builders :=
  mk_builders (fun _ _ _ _ => Ok three_days)
    (fun _ _ => Ok (constant_model p)).

(** [n] market events, each answered with three returns. *)
Definition market_days (n : nat) : list (DataHandler * Event) :=
  repeat (three_returns, market_event) n.

(** The calls construction makes with these builders. *)
Definition construction_log : list Call :=
  [Call_create_lagged_series "SPY" (dt_datetime 2016 1 10)
     (dt_datetime 2017 12 31) 5;
   Call_fit
     (mk_frame ["Lag1"; "Lag2"]
        [(dt_datetime 2016 12 29, [-0.25; 0.125]%float);
         (dt_datetime 2016 12 30, [0.5; -0.25]%float)])
     (mk_frame ["Direction"]
        [(dt_datetime 2016 12 29, [1]%float);
         (dt_datetime 2016 12 30, [-1]%float)])].

(** A classifier that predicts the first feature, a market day whose
    yesterday's return is [r], and eight days: five of warm-up, then an up
    day, a down day and an up day. *)
Definition momentum_model : Model :=
  mk_model (fun X =>
    match X with
    | [[lag1; _]] => Ok lag1
    | _ => Raise (Raised "ValueError")
    end).

Definition momentum_builders : Builders :=
  mk_builders (fun _ _ _ _ => Ok three_days) (fun _ _ => Ok momentum_model).

Definition day_after (r : float) : DataHandler * Event :=
  (fun _ _ _ => Ok [0; r; 0]%float, market_event).

Definition eight_days : list (DataHandler * Event) :=
  market_days 5 ++ [day_after 0.5; day_after (-0.5); day_after 0.25].

(** A lagged series that starts after the test cutoff, one with a single
    lag column, and builders that fit with [QDA_fit]. *)
Definition late_days : DataFrame :=
  mk_frame ["Today"; "Lag1"; "Lag2"; "Lag3"; "Lag4"; "Lag5"; "Direction"]
    [(dt_datetime 2017 1 3, [0.75; -1.5; 0.5; -0.25; 0.125; 1; 1]%float);
     (dt_datetime 2017 1 4, [-0.5; 0.75; -1.5; 0.5; -0.25; 0.125; -1]%float)].

Definition one_lag : DataFrame :=
  mk_frame ["Today"; "Lag1"; "Direction"]
    [(dt_datetime 2016 12 29, [0.5; -0.25; 1]%float)].

Definition QDA_builders (frame : DataFrame) : Builders :=
  mk_builders (fun _ _ _ _ => Ok frame)
    (QDA_fit (fun _ _ => momentum_model)).

(** Builders whose series cannot be built, and builders whose classifier
    cannot be fitted. *)
Definition no_data_builders : Builders :=
  mk_builders (fun _ _ _ _ => Raise (Raised "FileNotFoundError"))
    (fun _ _ => Ok momentum_model).

Definition no_fit_builders : Builders :=
  mk_builders (fun _ _ _ _ => Ok three_days)
    (fun _ _ => Raise (Raised "ValueError")).

(** A lagged series without the response column. *)
Definition no_direction : DataFrame :=
  mk_frame ["Today"; "Lag1"; "Lag2"]
    [(dt_datetime 2016 12 29, [0.5; -0.25; 0.125]%float)].

(** * Properties *)

(** ** Floating-point comparisons against zero *)

Section FloatSign.

Variable p : float.

Lemma gt0_not_lt0 : (0 <? p)%float = true -> (p <? 0)%float = false.
Proof.
  rewrite !ltb_spec. change (Prim2SF 0) with (S754_zero false).
  destruct (Prim2SF p) as [ [] | [] | | [] m e ]; cbn; congruence.
Qed.

Lemma le0_not_gt0 : (p <=? 0)%float = true -> (0 <? p)%float = false.
Proof.
  rewrite leb_spec, ltb_spec. change (Prim2SF 0) with (S754_zero false).
  destruct (Prim2SF p) as [ [] | [] | | [] m e ]; cbn; congruence.
Qed.

Lemma ge0_not_lt0 : (0 <=? p)%float = true -> (p <? 0)%float = false.
Proof.
  rewrite leb_spec, ltb_spec. change (Prim2SF 0) with (S754_zero false).
  destruct (Prim2SF p) as [ [] | [] | | [] m e ]; cbn; congruence.
Qed.

Lemma eq0_not_signed : (p =? 0)%float = true ->
  (0 <? p)%float = false /\ (p <? 0)%float = false.
Proof.
  rewrite eqb_spec, !ltb_spec. change (Prim2SF 0) with (S754_zero false).
  destruct (Prim2SF p) as [ [] | [] | | [] m e ]; cbn; intuition congruence.
Qed.

End FloatSign.

(** ** One call of [calculate_signals] *)

Ltac unfold_py :=
  unfold calculate_signals, bind, gets, lift, when, update_self, events_put,
    modify, call, ret, getitem.

Section Step.

Variables (bars : DataHandler) (event : Event) (w : World).

(** An event that is not a market event changes nothing. *)
Lemma step_not_market :
  is_market event = false ->
  calculate_signals bars event w
  = (match symbol_list (self w) with [] => Raise IndexError | _ => Ok tt end,
     w).
Proof.
  unfold is_market; intros H. unfold_py. cbn.
  destruct (symbol_list (self w)); cbn; [reflexivity|].
  rewrite H. reflexivity.
Qed.

(** A market event during warm-up only counts. *)
Lemma step_warm_up sym tl :
  is_market event = true ->
  symbol_list (self w) = sym :: tl ->
  shouldPredict (bar_index (self w) + 1) = false ->
  calculate_signals bars event w
  = (Ok tt,
     mk_world (set_bar_index (bar_index (self w) + 1) (self w))
       (events w) (calls w)).
Proof.
  unfold is_market, shouldPredict; intros Hm Hs Hg. unfold_py. cbn.
  rewrite Hs; cbn. rewrite Hm; cbn. rewrite Hg. reflexivity.
Qed.

(** A market event past the gate, with enough returns and a prediction. *)
Lemma step_predict sym tl l0 l1 l2 ls p :
  is_market event = true ->
  symbol_list (self w) = sym :: tl ->
  shouldPredict (bar_index (self w) + 1) = true ->
  bars sym "returns" 3 = Ok (l0 :: l1 :: l2 :: ls) ->
  predict (model (self w)) [[(l1 * 100.0)%float; (l2 * 100.0)%float]]
  = Ok p ->
  calculate_signals bars event w
  = (Ok tt,
     mk_world
       (set_long_market (fst (decide (long_market (self w)) p))
          (set_bar_index (bar_index (self w) + 1) (self w)))
       (events w
        ++ map (signal_of (self w) sym)
             (snd (decide (long_market (self w)) p)))
       (calls w
        ++ [Call_get_latest_bars_values sym "returns" 3;
            Call_predict
              [[(l1 * 100.0)%float; (l2 * 100.0)%float]]])).
Proof.
  unfold is_market, shouldPredict; intros Hm Hs Hg Hb Hp.
  destruct w as [s evs cs]; cbn in *.
  unfold_py. cbn. rewrite Hs; cbn. rewrite Hm; cbn. rewrite Hg; cbn.
  rewrite Hs; cbn.
  rewrite Hb; cbn. rewrite Hp; cbn.
  unfold decide, signal_of.
  destruct s as [sl dn d1 d2 d3 lm sm bi md]; cbn in *.
  destruct lm, (0 <? p)%float eqn:Hgt, (p <? 0)%float eqn:Hlt; cbn;
    try (apply gt0_not_lt0 in Hgt; congruence);
    rewrite <- ?app_assoc, ?app_nil_r; reflexivity.
Qed.

(** The strategy has lost its symbol: the first statement raises. *)
Lemma step_no_symbol :
  symbol_list (self w) = [] ->
  calculate_signals bars event w = (Raise IndexError, w).
Proof.
  intros Hs. unfold_py. cbn. rewrite Hs. reflexivity.
Qed.

(** Past the gate the data handler is asked first; if it raises, so does
    the strategy. *)
Lemma step_bars_raise sym tl e :
  is_market event = true ->
  symbol_list (self w) = sym :: tl ->
  shouldPredict (bar_index (self w) + 1) = true ->
  bars sym "returns" 3 = Raise e ->
  calculate_signals bars event w
  = (Raise e,
     mk_world (set_bar_index (bar_index (self w) + 1) (self w))
       (events w)
       (calls w ++ [Call_get_latest_bars_values sym "returns" 3])).
Proof.
  unfold is_market, shouldPredict; intros Hm Hs Hg Hb.
  unfold_py. cbn. rewrite Hs; cbn. rewrite Hm; cbn. rewrite Hg; cbn.
  rewrite Hs; cbn. rewrite Hb. reflexivity.
Qed.

(** Fewer than three returns: [lags[1]] or [lags[2]] raises. *)
Lemma step_short sym tl lags :
  is_market event = true ->
  symbol_list (self w) = sym :: tl ->
  shouldPredict (bar_index (self w) + 1) = true ->
  bars sym "returns" 3 = Ok lags ->
  (List.length lags < 3)%nat ->
  calculate_signals bars event w
  = (Raise IndexError,
     mk_world (set_bar_index (bar_index (self w) + 1) (self w))
       (events w)
       (calls w ++ [Call_get_latest_bars_values sym "returns" 3])).
Proof.
  unfold is_market, shouldPredict; intros Hm Hs Hg Hb Hl.
  unfold_py. cbn. rewrite Hs; cbn. rewrite Hm; cbn. rewrite Hg; cbn.
  rewrite Hs; cbn. rewrite Hb.
  destruct lags as [|l0 [|l1 [|l2 ls]]]; cbn in *; try reflexivity; lia.
Qed.

(** The classifier raises: nothing is decided. *)
Lemma step_predict_raise sym tl l0 l1 l2 ls e :
  is_market event = true ->
  symbol_list (self w) = sym :: tl ->
  shouldPredict (bar_index (self w) + 1) = true ->
  bars sym "returns" 3 = Ok (l0 :: l1 :: l2 :: ls) ->
  predict (model (self w)) [[(l1 * 100.0)%float; (l2 * 100.0)%float]]
  = Raise e ->
  calculate_signals bars event w
  = (Raise e,
     mk_world (set_bar_index (bar_index (self w) + 1) (self w))
       (events w)
       (calls w
        ++ [Call_get_latest_bars_values sym "returns" 3;
            Call_predict
              [[(l1 * 100.0)%float; (l2 * 100.0)%float]]])).
Proof.
  unfold is_market, shouldPredict; intros Hm Hs Hg Hb Hp.
  unfold_py. cbn. rewrite Hs; cbn. rewrite Hm; cbn. rewrite Hg; cbn.
  rewrite Hs; cbn. rewrite Hb; cbn. rewrite Hp; cbn.
  rewrite <- app_assoc. reflexivity.
Qed.

End Step.

(** ** Every outcome of [calculate_signals] *)

Lemma counted_nil (w : World) :
  counted [] w
  = mk_world (set_bar_index (bar_index (self w) + 1) (self w)) (events w)
      (calls w).
Proof. unfold counted. rewrite app_nil_r. reflexivity. Qed.

Lemma calculate_signals_handled (bars : DataHandler) (event : Event)
    (w : World) :
  handled event w (fst (calculate_signals bars event w))
    (snd (calculate_signals bars event w)).
Proof.
  destruct (symbol_list (self w)) as [|sym tl] eqn:Hs.
  { rewrite step_no_symbol by assumption. apply handled_idle. }
  destruct (is_market event) eqn:Hm.
  2:{ rewrite step_not_market by assumption. apply handled_idle. }
  destruct (shouldPredict (bar_index (self w) + 1)) eqn:Hg.
  2:{ rewrite (step_warm_up _ _ _ sym tl), <- counted_nil by assumption.
      apply handled_quiet; [assumption | reflexivity | constructor]. }
  destruct (bars sym "returns" 3) as [lags|e] eqn:Hb.
  2:{ rewrite (step_bars_raise _ _ _ sym tl e) by assumption.
      apply handled_quiet; [assumption | congruence | repeat constructor]. }
  destruct lags as [|l0 [|l1 [|l2 ls]]];
    try (rewrite (step_short _ _ _ sym tl _ Hm Hs Hg Hb) by (cbn; lia);
         apply handled_quiet; [assumption | congruence | repeat constructor]).
  destruct (predict (model (self w))
              [[(l1 * 100.0)%float; (l2 * 100.0)%float]]) as [p|e] eqn:Hp.
  - rewrite (step_predict _ _ _ sym tl l0 l1 l2 ls p) by assumption.
    apply handled_decided with (tl := tl);
      [assumption | assumption | assumption | repeat constructor].
  - rewrite (step_predict_raise _ _ _ sym tl l0 l1 l2 ls e) by assumption.
    apply handled_quiet; [assumption | congruence | repeat constructor].
Qed.

(** What [decide] can do: nothing, enter from flat, or exit from long. *)
Lemma decide_cases (long : bool) (p : float) :
  decide long p = (long, [])
  \/ (long = false /\ decide long p = (true, ["LONG"]))
  \/ (long = true /\ decide long p = (false, ["EXIT"])).
Proof.
  unfold decide.
  destruct long, (0 <? p)%float eqn:Hgt, (p <? 0)%float eqn:Hlt; cbn;
    try (apply gt0_not_lt0 in Hgt; congruence); auto.
Qed.

Lemma decide_sign (long : bool) (p1 p2 : float) :
  sign p1 = sign p2 -> decide long p1 = decide long p2.
Proof.
  unfold sign, decide.
  destruct (0 <? p1)%float eqn:G1, (p1 <? 0)%float eqn:L1,
    (0 <? p2)%float eqn:G2, (p2 <? 0)%float eqn:L2;
    intros H; try discriminate H; try reflexivity;
    try (apply gt0_not_lt0 in G1; congruence);
    try (apply gt0_not_lt0 in G2; congruence).
Qed.

Lemma emitted_app (w : World) (s : Strategy) (out : list SignalEvent)
    (cs : list Call) :
  emitted w (mk_world s (events w ++ out) cs) = out.
Proof.
  unfold emitted; cbn. induction (events w); cbn; auto.
Qed.

Lemma position_long (s : Strategy) :
  position s = LONG <-> long_market s = true.
Proof. unfold position. destruct (long_market s); split; congruence. Qed.

Lemma position_flat (s : Strategy) :
  position s = FLAT <-> long_market s = false.
Proof. unfold position. destruct (long_market s); split; congruence. Qed.

(** ** The transition table *)

(** C1.  A market event past the warm-up gate, answered by the data handler
    and the classifier with prediction [p], follows the row of the transition
    table for the current position and [p]: from FLAT with [p > 0] exactly one
    LONG signal of size 1.0 is put and the position becomes LONG; from FLAT
    with [p <= 0] nothing is put; from LONG with [p < 0] exactly one EXIT
    signal of size 1.0 is put and the position becomes FLAT; from LONG with
    [p >= 0] nothing is put.  A prediction equal to 0 enters nothing and exits
    nothing. *)
Theorem transition_table_followed
    (bars : DataHandler) (event : Event) (w : World)
    (sym : string) (tl : list string) (l0 l1 l2 : float) (ls : list float)
    (p : float) (action : option string) (st' : PositionState) :
  is_market event = true ->
  shouldPredict (bar_index (self w) + 1) = true ->
  symbol_list (self w) = sym :: tl ->
  bars sym "returns" 3 = Ok (l0 :: l1 :: l2 :: ls) ->
  predict (model (self w)) [[(l1 * 100.0)%float; (l2 * 100.0)%float]]
  = Ok p ->
  table_row (position (self w)) p action st' ->
  fst (calculate_signals bars event w) = Ok tt
  /\ position (self (snd (calculate_signals bars event w))) = st'
  /\ events (snd (calculate_signals bars event w))
     = events w
       ++ match action with
          | Some d => [mk_SignalEvent 1 sym (datetime_now (self w)) d 1.0]
          | None => []
          end
  /\ ((p =? 0)%float = true ->
      action = None /\ st' = position (self w)).
Proof.
  intros Hm Hg Hs Hb Hp Hrow.
  rewrite (step_predict _ _ _ sym tl l0 l1 l2 ls p) by assumption.
  cbn [fst snd self events].
  split; [reflexivity|].
  unfold decide, signal_of.
  inversion Hrow as [q Hq Hst | q Hq Hst | q Hq Hst | q Hq Hst]; subst.
  - symmetry in Hst. apply position_flat in Hst.
    rewrite Hst, Hq, (gt0_not_lt0 _ Hq). cbn.
    split; [reflexivity|]. split; [reflexivity|].
    intros H0. apply eq0_not_signed in H0. destruct H0; congruence.
  - symmetry in Hst. pose proof Hst as Hpos. apply position_flat in Hst.
    rewrite Hst, (le0_not_gt0 _ Hq). cbn. rewrite andb_false_r. cbn.
    auto.
  - symmetry in Hst. apply position_long in Hst.
    rewrite Hst, Hq. cbn. rewrite andb_false_r. cbn.
    split; [reflexivity|]. split; [reflexivity|].
    intros H0. apply eq0_not_signed in H0. destruct H0; congruence.
  - symmetry in Hst. pose proof Hst as Hpos. apply position_long in Hst.
    rewrite Hst, (ge0_not_lt0 _ Hq). cbn. rewrite andb_false_r. cbn.
    auto.
Qed.

Lemma transition_table_followed_witness :
  events
    (snd (calculate_signals three_returns market_event
            (mk_world (spy false 5 (constant_model 1)) [] [])))
  = [mk_SignalEvent 1 "SPY" (mk_datetime 2020 5 6 76647000000) "LONG" 1.0].
Proof.
  exact (proj1 (proj2 (proj2
    (transition_table_followed three_returns market_event
       (mk_world (spy false 5 (constant_model 1)) [] [])
       "SPY" [] 0.5 (-0.25) 0.125 [] 1 (Some "LONG") LONG
       eq_refl eq_refl eq_refl eq_refl eq_refl
       (row_flat_positive 1 eq_refl))))).
Defined.

(** ** Feature extraction *)

(** C4.  Past the gate the strategy asks the data handler for the 3 latest
    "returns" of its symbol and hands the classifier exactly
    [returns[1]*100, returns[2]*100]; the value at index 0 is not among the
    predictors: another answer that differs at index 0 (and beyond index 2)
    leads to the same call of the classifier. *)
Theorem features_are_lag1_lag2
    (bars : DataHandler) (event : Event) (w : World)
    (sym : string) (tl : list string) (l0 l1 l2 : float) (ls : list float) :
  is_market event = true ->
  shouldPredict (bar_index (self w) + 1) = true ->
  symbol_list (self w) = sym :: tl ->
  bars sym "returns" 3 = Ok (l0 :: l1 :: l2 :: ls) ->
  calls (snd (calculate_signals bars event w))
  = calls w
    ++ [Call_get_latest_bars_values sym "returns" 3;
        Call_predict [[(l1 * 100.0)%float; (l2 * 100.0)%float]]]
  /\ (forall (bars' : DataHandler) (l0' : float) (ls' : list float),
        bars' sym "returns" 3 = Ok (l0' :: l1 :: l2 :: ls') ->
        calls (snd (calculate_signals bars' event w))
        = calls (snd (calculate_signals bars event w))).
Proof.
  intros Hm Hg Hs Hb.
  assert (Hcalls : forall b x xs,
    b sym "returns" 3 = Ok (x :: l1 :: l2 :: xs) ->
    calls (snd (calculate_signals b event w))
    = calls w
      ++ [Call_get_latest_bars_values sym "returns" 3;
          Call_predict [[(l1 * 100.0)%float; (l2 * 100.0)%float]]]).
  { intros b x xs Hx.
    destruct (predict (model (self w))
                [[(l1 * 100.0)%float; (l2 * 100.0)%float]]) as [p|e] eqn:Hp.
    - rewrite (step_predict _ _ _ sym tl x l1 l2 xs p) by assumption.
      reflexivity.
    - rewrite (step_predict_raise _ _ _ sym tl x l1 l2 xs e) by assumption.
      reflexivity. }
  split.
  - apply (Hcalls bars l0 ls Hb).
  - intros bars' l0' ls' Hb'.
    rewrite (Hcalls bars' l0' ls' Hb'), (Hcalls bars l0 ls Hb). reflexivity.
Qed.

Lemma features_are_lag1_lag2_witness :
  calls
    (snd (calculate_signals three_returns market_event
            (mk_world (spy false 5 (constant_model 1)) [] [])))
  = [Call_get_latest_bars_values "SPY" "returns" 3;
     Call_predict [[(-25)%float; 12.5%float]]].
Proof.
  exact (proj1
    (features_are_lag1_lag2 three_returns market_event
       (mk_world (spy false 5 (constant_model 1)) [] [])
       "SPY" [] 0.5 (-0.25) 0.125 [] eq_refl eq_refl eq_refl eq_refl)).
Defined.

(** ** Error paths *)

Lemma raise_keeps_position (bars : DataHandler) (event : Event) (w : World)
    (e : exn) :
  fst (calculate_signals bars event w) = Raise e ->
  events (snd (calculate_signals bars event w)) = events w
  /\ position (self (snd (calculate_signals bars event w)))
     = position (self w).
Proof.
  pose proof (calculate_signals_handled bars event w) as H.
  destruct (calculate_signals bars event w) as [r w']; cbn in *.
  intros Hr; subst r.
  inversion H; subst; cbn; auto.
Qed.

(** C7.  Past the gate, when the data handler returns fewer than 3 returns,
    [calculate_signals] raises [IndexError] (the insufficient-history error),
    puts no signal and leaves the position as it was; and whenever
    [calculate_signals] raises, whatever the exception, no signal has been
    put and the position is as it was. *)
Theorem insufficient_history_raises
    (bars : DataHandler) (event : Event) (w : World)
    (sym : string) (tl : list string) (lags : list float) :
  is_market event = true ->
  shouldPredict (bar_index (self w) + 1) = true ->
  symbol_list (self w) = sym :: tl ->
  bars sym "returns" 3 = Ok lags ->
  (List.length lags < 3)%nat ->
  fst (calculate_signals bars event w) = Raise IndexError
  /\ events (snd (calculate_signals bars event w)) = events w
  /\ position (self (snd (calculate_signals bars event w)))
     = position (self w)
  /\ (forall (bars' : DataHandler) (event' : Event) (w0 : World) (e : exn),
        fst (calculate_signals bars' event' w0) = Raise e ->
        events (snd (calculate_signals bars' event' w0)) = events w0
        /\ position (self (snd (calculate_signals bars' event' w0)))
           = position (self w0)).
Proof.
  intros Hm Hg Hs Hb Hl.
  assert (Hr : fst (calculate_signals bars event w) = Raise IndexError).
  { rewrite (step_short _ _ _ sym tl lags) by assumption. reflexivity. }
  split; [exact Hr|].
  destruct (raise_keeps_position _ _ _ _ Hr) as [He Hpos].
  split; [exact He|]. split; [exact Hpos|].
  intros bars' event' w0 e. apply raise_keeps_position.
Qed.

Lemma insufficient_history_raises_witness :
  fst (calculate_signals two_returns market_event
         (mk_world (spy true 7 (constant_model (-1))) [] []))
  = Raise IndexError.
Proof.
  exact (proj1
    (insufficient_history_raises two_returns market_event
       (mk_world (spy true 7 (constant_model (-1))) [] [])
       "SPY" [] [0.5; -0.25]%float
       eq_refl eq_refl eq_refl eq_refl (le_n 3))).
Defined.

(** ** Events that are not market events *)

(** C10.  For an event whose type is not 'MARKET', [calculate_signals]
    leaves the whole world as it was: the counter, the position flag, the
    call log (the data handler is not asked) and the signals put on the
    queue; and it returns normally when the strategy has a symbol. *)
Theorem non_market_event_is_noop
    (bars : DataHandler) (event : Event) (w : World) :
  type event <> "MARKET" ->
  snd (calculate_signals bars event w) = w
  /\ bar_index (self (snd (calculate_signals bars event w)))
     = bar_index (self w)
  /\ long_market (self (snd (calculate_signals bars event w)))
     = long_market (self w)
  /\ calls (snd (calculate_signals bars event w)) = calls w
  /\ events (snd (calculate_signals bars event w)) = events w
  /\ (symbol_list (self w) <> [] ->
      fst (calculate_signals bars event w) = Ok tt).
Proof.
  intros Ht.
  assert (Hm : is_market event = false).
  { unfold is_market. apply String.eqb_neq. exact Ht. }
  rewrite step_not_market by assumption. cbn [fst snd].
  repeat (split; [reflexivity|]).
  intros Hs. destruct (symbol_list (self w)); congruence.
Qed.

Lemma non_market_event_is_noop_witness :
  snd (calculate_signals three_returns signal_event
         (mk_world (spy false 9 (constant_model 1)) [] []))
  = mk_world (spy false 9 (constant_model 1)) [] [].
Proof.
  refine (proj1
    (non_market_event_is_noop three_returns signal_event
       (mk_world (spy false 9 (constant_model 1)) [] []) _)).
  cbn. discriminate.
Defined.

(** ** The transition as a function of state and sign *)

(** C9.  Two calls past the gate, in worlds of the same strategy (same
    symbol, same construction timestamp) with whatever event counts, call
    logs and returns, that start from the same position and obtain
    predictions of the same sign, end in the same position and put the same
    signals. *)
Theorem transition_depends_on_state_and_sign
    (bars1 bars2 : DataHandler) (event1 event2 : Event) (w1 w2 : World)
    (sym : string) (tl1 tl2 : list string)
    (l0 l1 l2 m0 m1 m2 : float) (ls ms : list float) (p1 p2 : float) :
  is_market event1 = true ->
  is_market event2 = true ->
  shouldPredict (bar_index (self w1) + 1) = true ->
  shouldPredict (bar_index (self w2) + 1) = true ->
  symbol_list (self w1) = sym :: tl1 ->
  symbol_list (self w2) = sym :: tl2 ->
  datetime_now (self w1) = datetime_now (self w2) ->
  bars1 sym "returns" 3 = Ok (l0 :: l1 :: l2 :: ls) ->
  bars2 sym "returns" 3 = Ok (m0 :: m1 :: m2 :: ms) ->
  predict (model (self w1)) [[(l1 * 100.0)%float; (l2 * 100.0)%float]]
  = Ok p1 ->
  predict (model (self w2)) [[(m1 * 100.0)%float; (m2 * 100.0)%float]]
  = Ok p2 ->
  position (self w1) = position (self w2) ->
  sign p1 = sign p2 ->
  position (self (snd (calculate_signals bars1 event1 w1)))
  = position (self (snd (calculate_signals bars2 event2 w2)))
  /\ emitted w1 (snd (calculate_signals bars1 event1 w1))
     = emitted w2 (snd (calculate_signals bars2 event2 w2)).
Proof.
  intros Hm1 Hm2 Hg1 Hg2 Hs1 Hs2 Hd Hb1 Hb2 Hp1 Hp2 Hpos Hsign.
  rewrite (step_predict _ _ _ sym tl1 l0 l1 l2 ls p1) by assumption.
  rewrite (step_predict _ _ _ sym tl2 m0 m1 m2 ms p2) by assumption.
  cbn [snd self]. rewrite !emitted_app.
  assert (Hl : long_market (self w1) = long_market (self w2)).
  { unfold position in Hpos.
    destruct (long_market (self w1)), (long_market (self w2)); congruence. }
  rewrite Hl, (decide_sign _ p1 p2 Hsign).
  unfold signal_of. rewrite Hd. split; reflexivity.
Qed.

Lemma transition_depends_on_state_and_sign_witness :
  emitted (mk_world (spy true 5 (constant_model (-1))) [] [])
    (snd (calculate_signals three_returns market_event
            (mk_world (spy true 5 (constant_model (-1))) [] [])))
  = emitted (mk_world (spy true 40 (constant_model (-2.5))) [] [])
      (snd (calculate_signals
              (fun _ _ _ => Ok [1; 2; 3; 4]%float) market_event
              (mk_world (spy true 40 (constant_model (-2.5))) [] []))).
Proof.
  exact (proj2
    (transition_depends_on_state_and_sign
       three_returns (fun _ _ _ => Ok [1; 2; 3; 4]%float)
       market_event market_event
       (mk_world (spy true 5 (constant_model (-1))) [] [])
       (mk_world (spy true 40 (constant_model (-2.5))) [] [])
       "SPY" [] [] 0.5 (-0.25) 0.125 1 2 3 [] [4%float] (-1) (-2.5)
       eq_refl eq_refl eq_refl eq_refl eq_refl eq_refl eq_refl eq_refl
       eq_refl eq_refl eq_refl eq_refl eq_refl)).
Defined.

(** ** Construction, read backwards *)

Lemma create_symbol_forecast_model_ok (b : Builders) (syms : list string)
    (d1 d2 d3 : datetime) (m : Model) (log : list Call) :
  create_symbol_forecast_model b syms d1 d2 d3 [] = (Ok m, log) ->
  exists sym tl snpret X y,
    syms = sym :: tl
    /\ create_lagged_series b sym d1 d2 5 = Ok snpret
    /\ select_columns ["Lag1"; "Lag2"] snpret = Ok X
    /\ select_columns ["Direction"] snpret = Ok y
    /\ fit b (index_lt d3 X) (index_lt d3 y) = Ok m
    /\ log = [Call_create_lagged_series sym d1 d2 5;
              Call_fit (index_lt d3 X) (index_lt d3 y)].
Proof.
  unfold create_symbol_forecast_model, bind, lift, log_call, ret, getitem.
  destruct syms as [|sym tl]; cbn; [discriminate|].
  destruct (create_lagged_series b sym d1 d2 5) as [snpret|] eqn:Hc;
    [|discriminate].
  destruct (select_columns ["Lag1"; "Lag2"] snpret) as [X|] eqn:HX;
    [|discriminate].
  destruct (select_columns ["Direction"] snpret) as [y|] eqn:Hy;
    [|discriminate].
  destruct (fit b (index_lt d3 X) (index_lt d3 y)) as [m'|] eqn:Hf;
    [|discriminate].
  intros H; inversion H; subst.
  exists sym, tl, snpret, X, y. repeat split; assumption.
Qed.

Lemma init_ok (b : Builders) (syms : list string) (utcnow : datetime)
    (s : Strategy) (log : list Call) :
  __init__ b syms utcnow [] = (Ok s, log) ->
  symbol_list s = syms
  /\ datetime_now s = utcnow
  /\ long_market s = false
  /\ bar_index s = 0
  /\ filter is_query log = [].
Proof.
  unfold __init__, bind, ret.
  destruct (create_symbol_forecast_model b syms (dt_datetime 2016 1 10)
              (dt_datetime 2017 12 31) (dt_datetime 2017 1 1) [])
    as [[m|e] log'] eqn:Hc; [|discriminate].
  intros H; inversion H; subst; cbn.
  apply create_symbol_forecast_model_ok in Hc.
  destruct Hc as (sym & tl & snpret & X & y & _ & _ & _ & _ & _ & Hlog).
  subst log. repeat split; reflexivity.
Qed.

(** ** Runs preserve what each call preserves *)

Lemma run_cons (bars : DataHandler) (event : Event)
    (rest : list (DataHandler * Event)) (w : World) :
  run ((bars, event) :: rest) w
  = match fst (calculate_signals bars event w) with
    | Ok _ => run rest (snd (calculate_signals bars event w))
    | Raise e => (Raise e, snd (calculate_signals bars event w))
    end.
Proof.
  cbn [run]. unfold bind.
  destruct (calculate_signals bars event w) as [[u|e] w']; reflexivity.
Qed.

Section Invariant.

Variable P : World -> Prop.

Hypothesis P_step : forall bars event w,
  P w -> P (snd (calculate_signals bars event w)).

Lemma run_invariant (feed : list (DataHandler * Event)) :
  forall w, P w -> P (snd (run feed w)).
Proof.
  induction feed as [|[bars event] rest IH]; intros w Hw; [exact Hw|].
  rewrite run_cons.
  destruct (fst (calculate_signals bars event w)) eqn:Hr.
  - apply IH, P_step, Hw.
  - cbn. apply P_step, Hw.
Qed.

Hypothesis P_init : forall b syms utcnow s log,
  __init__ b syms utcnow [] = (Ok s, log) -> P (mk_world s [] log).

Lemma reachable_invariant (w : World) : reachable w -> P w.
Proof.
  induction 1 as [b syms utcnow s log Hi | bars event w Hw IH].
  - apply (P_init _ _ _ _ _ Hi).
  - apply P_step, IH.
Qed.

End Invariant.

Lemma run_reachable (feed : list (DataHandler * Event)) (w : World) :
  reachable w -> reachable (snd (run feed w)).
Proof.
  apply run_invariant. intros bars event w0. apply reachable_step.
Qed.

Lemma market_count_cons (bars : DataHandler) (event : Event)
    (rest : list (DataHandler * Event)) :
  market_count ((bars, event) :: rest)
  = (if is_market event then 1 else 0) + market_count rest.
Proof.
  unfold market_count. cbn [filter snd].
  destruct (is_market event); cbn [List.length]; lia.
Qed.

Lemma step_bar_index (bars : DataHandler) (event : Event) (w : World) :
  bar_index (self (snd (calculate_signals bars event w)))
  <= bar_index (self w) + (if is_market event then 1 else 0).
Proof.
  pose proof (calculate_signals_handled bars event w) as H.
  destruct (calculate_signals bars event w) as [r w']; cbn [fst snd] in *.
  inversion H as [r0 | r0 cs Hm | sym tl p cs Hm]; subst; cbn;
    try rewrite Hm; destruct (is_market event); lia.
Qed.

Lemma run_bar_index (feed : list (DataHandler * Event)) :
  forall w,
    bar_index (self (snd (run feed w)))
    <= bar_index (self w) + market_count feed.
Proof.
  induction feed as [|[bars event] rest IH]; intros w.
  - cbn. unfold market_count; cbn. lia.
  - rewrite run_cons, market_count_cons.
    pose proof (step_bar_index bars event w) as Hstep.
    assert (0 <= market_count rest) by (unfold market_count; lia).
    destruct (fst (calculate_signals bars event w)).
    + specialize (IH (snd (calculate_signals bars event w))). lia.
    + cbn [snd]. lia.
Qed.

(** ** The warm-up gate *)

Lemma gate_closed_step (bars : DataHandler) (event : Event) (w : World) :
  gate_closed w -> gate_closed (snd (calculate_signals bars event w)).
Proof.
  unfold gate_closed.
  pose proof (calculate_signals_handled bars event w) as H.
  destruct (calculate_signals bars event w) as [r w']; cbn [fst snd] in *.
  inversion H as [r0 | r0 cs Hm Hcs Hq | sym tl p cs Hm Hs Hg Hq]; subst;
    cbn; intros Hw Hle.
  - apply Hw, Hle.
  - destruct Hw as [He Hc]; [lia|].
    rewrite Hcs by (unfold shouldPredict; apply Z.ltb_ge; lia).
    rewrite app_nil_r. auto.
  - unfold shouldPredict in Hg. apply Z.ltb_lt in Hg. lia.
Qed.

(** C2.  Whatever the builders, the classifier they fit, the data handlers
    and the events: after a feed with at most 5 market events the strategy
    has put no signal on the queue and has asked neither the data handler
    nor the classifier.  A call that leaves the counter at 5 or less changes
    neither the queue nor the call log, and the gate is open exactly when the
    count exceeds 5. *)
Theorem no_signal_during_warm_up
    (b : Builders) (syms : list string) (utcnow : datetime)
    (s : Strategy) (log : list Call) (feed : list (DataHandler * Event)) :
  __init__ b syms utcnow [] = (Ok s, log) ->
  market_count feed <= 5 ->
  events (snd (run feed (mk_world s [] log))) = []
  /\ filter is_query (calls (snd (run feed (mk_world s [] log)))) = []
  /\ (forall (bars : DataHandler) (event : Event) (w : World),
        shouldPredict (bar_index (self w) + 1) = false ->
        events (snd (calculate_signals bars event w)) = events w
        /\ calls (snd (calculate_signals bars event w)) = calls w)
  /\ (forall n : Z, shouldPredict n = true <-> 5 < n).
Proof.
  intros Hi Hc.
  destruct (init_ok _ _ _ _ _ Hi) as (_ & _ & _ & Hbar & Hlog).
  assert (Hgate : gate_closed (snd (run feed (mk_world s [] log)))).
  { apply run_invariant; [exact gate_closed_step|].
    intros _. cbn. auto. }
  pose proof (run_bar_index feed (mk_world s [] log)) as Hle.
  cbn [self] in Hle. rewrite Hbar in Hle.
  destruct Hgate as [He Hq]; [lia|].
  split; [exact He|]. split; [exact Hq|]. split.
  - intros bars event w Hg.
    pose proof (calculate_signals_handled bars event w) as H.
    destruct (calculate_signals bars event w) as [r w']; cbn [fst snd] in *.
    inversion H as [r0 | r0 cs Hm Hcs Hq' | sym tl p cs Hm Hs Hg' Hq'];
      subst; cbn.
    + auto.
    + rewrite (Hcs Hg), app_nil_r. auto.
    + congruence.
  - intros n. unfold shouldPredict. apply Z.ltb_lt.
Qed.

Lemma no_signal_during_warm_up_witness :
  events
    (snd (run (market_days 5)
            (mk_world (spy false 0 (constant_model 1)) [] construction_log)))
  = [].
Proof.
  refine (proj1
    (no_signal_during_warm_up (constant_builders 1) ["SPY"]
       construction_time _ _ (market_days 5) eq_refl _)).
  vm_compute. discriminate.
Defined.

(** ** Alternation of signals *)

Lemma alternates_snoc (ds : list string) (d : string) :
  forall long,
    alternates long (ds ++ [d])
    = alternates long ds
      && String.eqb d (expected (xorb long (Nat.odd (List.length ds)))).
Proof.
  induction ds as [|x ds IH]; intros long; cbn [alternates app List.length].
  - unfold expected. rewrite andb_true_r, xorb_false_r. reflexivity.
  - rewrite IH, Nat.odd_succ, <- Nat.negb_odd, andb_assoc.
    replace (xorb (negb long) (Nat.odd (List.length ds)))
      with (xorb long (negb (Nat.odd (List.length ds))))
      by (destruct long, (Nat.odd (List.length ds)); reflexivity).
    reflexivity.
Qed.

Lemma alternates_no_repeat (pre post : list string) (d1 d2 : string) :
  forall long,
    alternates long (pre ++ d1 :: d2 :: post) = true -> d1 <> d2.
Proof.
  induction pre as [|x pre IH]; intros long; cbn [alternates app].
  - intros H. apply andb_prop in H. destruct H as [H1 H].
    apply andb_prop in H. destruct H as [H2 _].
    apply String.eqb_eq in H1, H2. subst.
    destruct long; cbn; discriminate.
  - intros H. apply andb_prop in H. destruct H as [_ H].
    apply (IH _ H).
Qed.

Lemma alternating_step (bars : DataHandler) (event : Event) (w : World) :
  alternating w -> alternating (snd (calculate_signals bars event w)).
Proof.
  unfold alternating.
  pose proof (calculate_signals_handled bars event w) as H.
  destruct (calculate_signals bars event w) as [r w']; cbn [fst snd] in *.
  inversion H as [r0 | r0 cs Hm Hcs Hq | sym tl p cs Hm Hs Hg Hq]; subst;
    cbn [self events counted long_market set_bar_index set_long_market];
    intros [Ha Hl]; [auto | auto |].
  destruct (decide_cases (long_market (self w)) p)
    as [Hd | [[Hf Hd] | [Hf Hd]]]; rewrite Hd; cbn [fst snd map].
  - rewrite app_nil_r. auto.
  - unfold directions in *. rewrite map_app. cbn [map].
    rewrite alternates_snoc, Ha.
    rewrite length_map, <- Hl, Hf, length_app, Nat.add_1_r, Nat.odd_succ,
      <- Nat.negb_odd, <- Hl, Hf.
    split; reflexivity.
  - unfold directions in *. rewrite map_app. cbn [map].
    rewrite alternates_snoc, Ha.
    rewrite length_map, <- Hl, Hf, length_app, Nat.add_1_r, Nat.odd_succ,
      <- Nat.negb_odd, <- Hl, Hf.
    split; reflexivity.
Qed.

(** C3.  In every reachable world the signals put on the queue alternate,
    LONG first: no two neighbours have the same direction.  And in any call
    at all, a LONG signal is put only from a flat position and an EXIT signal
    only from a long one. *)
Theorem signals_alternate (w : World) :
  reachable w ->
  alternates false (directions (events w)) = true
  /\ (forall pre post d1 d2,
        directions (events w) = pre ++ d1 :: d2 :: post -> d1 <> d2)
  /\ (forall (bars : DataHandler) (event : Event) (w0 : World)
             (sg : SignalEvent),
        In sg (emitted w0 (snd (calculate_signals bars event w0))) ->
        (direction sg = "LONG" /\ position (self w0) = FLAT)
        \/ (direction sg = "EXIT" /\ position (self w0) = LONG)).
Proof.
  intros Hr.
  assert (Ha : alternating w).
  { apply reachable_invariant; [exact alternating_step | | exact Hr].
    intros b syms utcnow s log Hi.
    destruct (init_ok _ _ _ _ _ Hi) as (_ & _ & Hl & _ & _).
    split; [reflexivity | exact Hl]. }
  destruct Ha as [Ha _].
  split; [exact Ha|]. split.
  - intros pre post d1 d2 Hd. rewrite Hd in Ha.
    apply (alternates_no_repeat _ _ _ _ _ Ha).
  - intros bars event w0 sg.
    pose proof (calculate_signals_handled bars event w0) as H.
    destruct (calculate_signals bars event w0) as [r w']; cbn [fst snd] in *.
    inversion H as [r0 | r0 cs Hm Hcs Hq | sym tl p cs Hm Hs Hg Hq]; subst.
    + unfold emitted. rewrite skipn_all. intros [].
    + unfold emitted, counted; cbn. rewrite skipn_all. intros [].
    + rewrite emitted_app.
      destruct (decide_cases (long_market (self w0)) p)
        as [Hd | [[Hf Hd] | [Hf Hd]]]; rewrite Hd; cbn [snd map In].
      * intros [].
      * intros [<- | []]. left. split; [reflexivity|].
        apply position_flat, Hf.
      * intros [<- | []]. right. split; [reflexivity|].
        apply position_long, Hf.
Qed.

Lemma eight_days_reachable :
  reachable
    (snd (run eight_days
            (mk_world (spy false 0 momentum_model) [] construction_log))).
Proof.
  apply run_reachable.
  apply (reachable_init momentum_builders ["SPY"] construction_time).
  reflexivity.
Qed.

Example eight_days_directions :
  directions
    (events
       (snd (run eight_days
               (mk_world (spy false 0 momentum_model) [] construction_log))))
  = ["LONG"; "EXIT"; "LONG"].
Proof. vm_compute. reflexivity. Qed.

Lemma signals_alternate_witness :
  alternates false
    (directions
       (events
          (snd (run eight_days
                  (mk_world (spy false 0 momentum_model) []
                     construction_log)))))
  = true.
Proof.
  exact (proj1 (signals_alternate _ eight_days_reachable)).
Defined.

(** ** The timestamp of signals *)

Lemma stamped_step (t : datetime) (bars : DataHandler) (event : Event)
    (w : World) :
  stamped t w -> stamped t (snd (calculate_signals bars event w)).
Proof.
  unfold stamped.
  pose proof (calculate_signals_handled bars event w) as H.
  destruct (calculate_signals bars event w) as [r w']; cbn [fst snd] in *.
  inversion H as [r0 | r0 cs Hm Hcs Hq | sym tl p cs Hm Hs Hg Hq]; subst;
    cbn; intros [Ht Hf]; [auto | auto |].
  split; [exact Ht|].
  apply Forall_app. split; [exact Hf|].
  apply Forall_forall. intros sg Hin. apply in_map_iff in Hin.
  destruct Hin as (d & <- & _). exact Ht.
Qed.

(** C8.  Every signal put on the queue during a run carries the timestamp
    taken when the strategy was constructed, whichever event led to it. *)
Theorem signals_carry_construction_time
    (b : Builders) (syms : list string) (utcnow : datetime)
    (s : Strategy) (log : list Call) (feed : list (DataHandler * Event))
    (sg : SignalEvent) :
  __init__ b syms utcnow [] = (Ok s, log) ->
  In sg (events (snd (run feed (mk_world s [] log)))) ->
  timestamp sg = utcnow.
Proof.
  intros Hi Hin.
  assert (Hst : stamped utcnow (snd (run feed (mk_world s [] log)))).
  { apply run_invariant; [apply stamped_step|].
    destruct (init_ok _ _ _ _ _ Hi) as (_ & Ht & _).
    split; [exact Ht | constructor]. }
  destruct Hst as [_ Hf].
  rewrite Forall_forall in Hf. apply Hf, Hin.
Qed.

Lemma signals_carry_construction_time_witness :
  timestamp (mk_SignalEvent 1 "SPY" construction_time "EXIT" 1.0)
  = construction_time.
Proof.
  refine (signals_carry_construction_time momentum_builders ["SPY"]
            construction_time _ _ eight_days
            (mk_SignalEvent 1 "SPY" construction_time "EXIT" 1.0)
            eq_refl _).
  vm_compute. right. left. reflexivity.
Defined.

(** ** Model construction *)

Lemma datetime_ge_not_lt (a b : datetime) :
  datetime_ge a b = negb (datetime_lt a b).
Proof.
  unfold datetime_ge, datetime_lt.
  destruct (datetime_compare a b); reflexivity.
Qed.




(** C6.  With a classifier that fits as [QDA_fit] does, construction fails
    when the lagged series has fewer than the two lag columns (the column
    selection raises [KeyError], the configuration error), and fails with
    [TrainingError] when the training partition is empty or its labels are of
    a single class; a construction that fails returns no strategy. *)
Theorem construction_fails_without_model
    (cls : string -> datetime -> datetime -> Z -> result DataFrame)
    (rule : DataFrame -> DataFrame -> Model)
    (sym : string) (tl : list string) (utcnow : datetime)
    (snpret : DataFrame) :
  cls sym (dt_datetime 2016 1 10) (dt_datetime 2017 12 31) 5 = Ok snpret ->
  (column_position "Lag1" (columns snpret) = None
   \/ column_position "Lag2" (columns snpret) = None ->
   exists k,
     fst (__init__ (mk_builders cls (QDA_fit rule)) (sym :: tl) utcnow [])
     = Raise (KeyError k)
     /\ (k = "Lag1" \/ k = "Lag2"))
  /\ (forall X y,
        select_columns ["Lag1"; "Lag2"] snpret = Ok X ->
        select_columns ["Direction"] snpret = Ok y ->
        rows (index_lt (dt_datetime 2017 1 1) X) = []
        \/ single_class (labels (index_lt (dt_datetime 2017 1 1) y)) = true ->
        fst (__init__ (mk_builders cls (QDA_fit rule)) (sym :: tl) utcnow [])
        = Raise TrainingError)
  /\ (forall e,
        fst (__init__ (mk_builders cls (QDA_fit rule)) (sym :: tl) utcnow [])
        = Raise e ->
        forall s log,
          __init__ (mk_builders cls (QDA_fit rule)) (sym :: tl) utcnow []
          <> (Ok s, log)).
Proof.
  intros Hc.
  unfold __init__, create_symbol_forecast_model, bind, lift, log_call, ret,
    getitem.
  cbn [nth_error create_lagged_series fit]. rewrite Hc.
  split; [|split].
  - unfold select_columns at 1. cbn [column_positions].
    intros [H1 | H2].
    + rewrite H1. exists "Lag1". cbn. auto.
    + destruct (column_position "Lag1" (columns snpret)).
      * rewrite H2. exists "Lag2". cbn. auto.
      * exists "Lag1". cbn. auto.
  - intros X y HX Hy Hd. rewrite HX, Hy.
    assert (Hdeg : degenerate (index_lt (dt_datetime 2017 1 1) X)
                     (index_lt (dt_datetime 2017 1 1) y) = true).
    { unfold degenerate. destruct Hd as [Hd | Hd].
      - rewrite Hd. reflexivity.
      - destruct (rows (index_lt (dt_datetime 2017 1 1) X));
          [reflexivity | exact Hd]. }
    unfold QDA_fit. rewrite Hdeg. reflexivity.
  - intros e He s log Hok. rewrite Hok in He. discriminate He.
Qed.

Lemma construction_fails_without_model_witness :
  fst (__init__ (QDA_builders late_days) ["SPY"] construction_time [])
  = Raise TrainingError.
Proof.
  exact (proj1 (proj2
    (construction_fails_without_model (fun _ _ _ _ => Ok late_days)
       (fun _ _ => momentum_model) "SPY" [] construction_time late_days
       eq_refl))
    _ _ eq_refl eq_refl (or_introl eq_refl)).
Defined.

Example construction_with_one_lag :
  fst (__init__ (QDA_builders one_lag) ["SPY"] construction_time [])
  = Raise (KeyError "Lag2").
Proof. reflexivity. Qed.

Example construction_with_three_days :
  exists s log,
    __init__ (QDA_builders three_days) ["SPY"] construction_time []
    = (Ok s, log).
Proof. eexists. eexists. reflexivity. Qed.

(** * Further properties *)

(** ** The paths of [calculate_signals] *)

Lemma calculate_signals_outcome (bars : DataHandler) (event : Event)
    (w : World) :
  outcome bars event w (calculate_signals bars event w).
Proof.
  destruct (symbol_list (self w)) as [|sym tl] eqn:Hs.
  { rewrite step_no_symbol by assumption. apply outcome_no_symbol, Hs. }
  destruct (is_market event) eqn:Hm.
  2:{ rewrite step_not_market, Hs by assumption.
      apply (outcome_not_market _ _ _ sym tl); assumption. }
  destruct (shouldPredict (bar_index (self w) + 1)) eqn:Hg.
  2:{ rewrite (step_warm_up _ _ _ sym tl), <- counted_nil by assumption.
      apply (outcome_warm_up _ _ _ sym tl); assumption. }
  destruct (bars sym "returns" 3) as [lags|e] eqn:Hb.
  2:{ rewrite (step_bars_raise _ _ _ sym tl e) by assumption.
      apply (outcome_bars_raise _ _ _ sym tl); assumption. }
  destruct lags as [|l0 [|l1 [|l2 ls]]];
    try (rewrite (step_short _ _ _ sym tl _ Hm Hs Hg Hb) by (cbn; lia);
         apply (outcome_short _ _ _ sym tl _ Hs Hm Hg Hb); cbn; lia).
  destruct (predict (model (self w)) (features l1 l2)) as [p|e] eqn:Hp.
  - rewrite (step_predict _ _ _ sym tl l0 l1 l2 ls p) by assumption.
    apply (outcome_predict _ _ _ sym tl l0 l1 l2 ls p); assumption.
  - rewrite (step_predict_raise _ _ _ sym tl l0 l1 l2 ls e) by assumption.
    apply (outcome_predict_raise _ _ _ sym tl l0 l1 l2 ls e); assumption.
Qed.

Ltac by_outcome bars event w :=
  let H := fresh "Hout" in
  pose proof (calculate_signals_outcome bars event w) as H;
  destruct (calculate_signals bars event w) as [? ?];
  inversion H; subst; clear H; cbn [fst snd].

Lemma step_symbol_list (bars : DataHandler) (event : Event) (w : World) :
  symbol_list (self (snd (calculate_signals bars event w)))
  = symbol_list (self w).
Proof. by_outcome bars event w; reflexivity. Qed.

Lemma step_counter (bars : DataHandler) (event : Event) (w : World) :
  symbol_list (self w) <> [] ->
  bar_index (self (snd (calculate_signals bars event w)))
  = bar_index (self w) + (if is_market event then 1 else 0).
Proof.
  intros Hs. by_outcome bars event w; cbn;
    try match goal with H : is_market event = _ |- _ => rewrite H end;
    try congruence; lia.
Qed.

(** ** The counter *)

(** X1.  A market event handled by a strategy that has a symbol advances the
    counter by exactly one, also when the call raises (the data handler or
    the classifier raised, or fewer than 3 returns came back); any other
    event leaves the counter alone. *)
Theorem market_event_is_counted
    (bars : DataHandler) (event : Event) (w : World) :
  symbol_list (self w) <> [] ->
  bar_index (self (snd (calculate_signals bars event w)))
  = bar_index (self w) + (if is_market event then 1 else 0).
Proof. apply step_counter. Qed.

Lemma market_event_is_counted_witness :
  fst (calculate_signals two_returns market_event
         (mk_world (spy true 7 (constant_model (-1))) [] []))
  = Raise IndexError
  /\ bar_index
       (self (snd (calculate_signals two_returns market_event
                     (mk_world (spy true 7 (constant_model (-1))) [] []))))
     = 8.
Proof.
  split; [reflexivity|].
  refine (market_event_is_counted two_returns market_event
            (mk_world (spy true 7 (constant_model (-1))) [] []) _).
  cbn. discriminate.
Defined.

(** X2.  Over a run the counter never decreases, and when the run of a
    strategy that has a symbol completes without an exception the counter has
    advanced by the number of market events in the feed. *)
Theorem counter_counts_market_events
    (feed : list (DataHandler * Event)) (w : World) :
  symbol_list (self w) <> [] ->
  bar_index (self w) <= bar_index (self (snd (run feed w)))
  /\ (fst (run feed w) = Ok tt ->
      bar_index (self (snd (run feed w)))
      = bar_index (self w) + market_count feed).
Proof.
  revert w. induction feed as [|[bars event] rest IH]; intros w Hs.
  - cbn. unfold market_count; cbn. split; [lia | intros _; lia].
  - rewrite run_cons, market_count_cons.
    pose proof (step_counter bars event w Hs) as Hc.
    assert (Hs' : symbol_list (self (snd (calculate_signals bars event w)))
                  <> []) by (rewrite step_symbol_list; exact Hs).
    destruct (IH _ Hs') as [IH1 IH2].
    destruct (fst (calculate_signals bars event w)); cbn [fst snd].
    + split.
      * destruct (is_market event); lia.
      * intros Hr. rewrite (IH2 Hr), Hc. lia.
    + split; [destruct (is_market event); lia | discriminate].
Qed.

Lemma counter_counts_market_events_witness :
  bar_index
    (self (snd (run eight_days
                  (mk_world (spy false 0 momentum_model) []
                     construction_log))))
  = 0 + market_count eight_days.
Proof.
  refine (proj2
    (counter_counts_market_events eight_days
       (mk_world (spy false 0 momentum_model) [] construction_log) _) _).
  - cbn. discriminate.
  - vm_compute. reflexivity.
Defined.

(** ** What one call puts and asks *)

(** X3.  A call only appends to the queue, and appends at most one signal:
    the two guarded blocks never both put one. *)
Theorem at_most_one_signal_per_event
    (bars : DataHandler) (event : Event) (w : World) :
  exists out,
    events (snd (calculate_signals bars event w)) = events w ++ out
    /\ (List.length out <= 1)%nat.
Proof.
  by_outcome bars event w;
    try (exists []; rewrite app_nil_r; split; [reflexivity | cbn; lia]).
  eexists. split; [reflexivity|].
  rewrite length_map.
  destruct (decide_cases (long_market (self w)) p)
    as [Hd | [[_ Hd] | [_ Hd]]]; rewrite Hd; cbn; lia.
Qed.

(** X4.  A call asks its collaborators in a fixed order: nothing at all; or
    the data handler alone, and then the call raises; or the data handler,
    which answered with at least three returns, and then the classifier, once
    each.  The classifier is never asked without those returns. *)
Theorem collaborators_are_asked_in_order
    (bars : DataHandler) (event : Event) (w : World) :
  calls (snd (calculate_signals bars event w)) = calls w
  \/ (exists sym e,
        calls (snd (calculate_signals bars event w))
        = calls w ++ [Call_get_latest_bars_values sym "returns" 3]
        /\ fst (calculate_signals bars event w) = Raise e)
  \/ (exists sym l0 l1 l2 ls,
        bars sym "returns" 3 = Ok (l0 :: l1 :: l2 :: ls)
        /\ calls (snd (calculate_signals bars event w))
           = calls w
             ++ [Call_get_latest_bars_values sym "returns" 3;
                 Call_predict (features l1 l2)]).
Proof.
  by_outcome bars event w.
  - left; reflexivity.
  - left; reflexivity.
  - left. cbn. apply app_nil_r.
  - right; left. exists sym, e. split; reflexivity.
  - right; left. exists sym, IndexError. split; reflexivity.
  - right; right. exists sym, l0, l1, l2, ls. split; [assumption|reflexivity].
  - right; right. exists sym, l0, l1, l2, ls. split; [assumption|reflexivity].
Qed.

(** X5.  A prediction that is neither positive nor negative (zero, negative
    zero or NaN) puts no signal and leaves the position flag as it was,
    whether the strategy is flat or long. *)
Theorem neutral_prediction_changes_nothing
    (bars : DataHandler) (event : Event) (w : World)
    (sym : string) (tl : list string) (l0 l1 l2 : float) (ls : list float)
    (p : float) :
  is_market event = true ->
  shouldPredict (bar_index (self w) + 1) = true ->
  symbol_list (self w) = sym :: tl ->
  bars sym "returns" 3 = Ok (l0 :: l1 :: l2 :: ls) ->
  predict (model (self w)) (features l1 l2) = Ok p ->
  sign p = 0 ->
  fst (calculate_signals bars event w) = Ok tt
  /\ events (snd (calculate_signals bars event w)) = events w
  /\ long_market (self (snd (calculate_signals bars event w)))
     = long_market (self w).
Proof.
  intros Hm Hg Hs Hb Hp Hsign.
  rewrite (step_predict _ _ _ sym tl l0 l1 l2 ls p) by assumption.
  cbn [fst snd self events].
  assert (Hd : decide (long_market (self w)) p = (long_market (self w), [])).
  { unfold sign in Hsign. unfold decide.
    destruct (0 <? p)%float; [discriminate|].
    destruct (p <? 0)%float; [discriminate|]. reflexivity. }
  rewrite Hd. cbn. rewrite app_nil_r. auto.
Qed.

Lemma neutral_prediction_changes_nothing_witness :
  long_market
    (self (snd (calculate_signals three_returns market_event
                  (mk_world (spy true 5 (constant_model nan)) [] []))))
  = true.
Proof.
  exact (proj2 (proj2
    (neutral_prediction_changes_nothing three_returns market_event
       (mk_world (spy true 5 (constant_model nan)) [] [])
       "SPY" [] 0.5 (-0.25) 0.125 [] nan
       eq_refl eq_refl eq_refl eq_refl eq_refl eq_refl))).
Defined.

(** X6.  Entering and leaving compose: from a flat position past the gate, a
    market event with a positive prediction followed by one with a negative
    prediction puts exactly a LONG and then an EXIT signal for the first
    symbol, and the strategy is flat again. *)
Theorem enter_then_exit
    (bars1 bars2 : DataHandler) (event1 event2 : Event) (w : World)
    (sym : string) (tl : list string)
    (l0 l1 l2 m0 m1 m2 : float) (ls ms : list float) (p1 p2 : float) :
  is_market event1 = true ->
  is_market event2 = true ->
  shouldPredict (bar_index (self w) + 1) = true ->
  symbol_list (self w) = sym :: tl ->
  long_market (self w) = false ->
  bars1 sym "returns" 3 = Ok (l0 :: l1 :: l2 :: ls) ->
  bars2 sym "returns" 3 = Ok (m0 :: m1 :: m2 :: ms) ->
  predict (model (self w)) (features l1 l2) = Ok p1 ->
  predict (model (self w)) (features m1 m2) = Ok p2 ->
  (0 <? p1)%float = true ->
  (p2 <? 0)%float = true ->
  events
    (snd (calculate_signals bars2 event2
            (snd (calculate_signals bars1 event1 w))))
  = events w
    ++ [mk_SignalEvent 1 sym (datetime_now (self w)) "LONG" 1.0;
        mk_SignalEvent 1 sym (datetime_now (self w)) "EXIT" 1.0]
  /\ long_market
       (self (snd (calculate_signals bars2 event2
                     (snd (calculate_signals bars1 event1 w)))))
     = false.
Proof.
  intros Hm1 Hm2 Hg Hs Hl Hb1 Hb2 Hp1 Hp2 Hup Hdown.
  rewrite (step_predict bars1 event1 w sym tl l0 l1 l2 ls p1)
    by assumption.
  cbn [snd].
  rewrite (step_predict bars2 event2 _ sym tl m0 m1 m2 ms p2);
    cbn [self symbol_list set_long_market set_bar_index bar_index model];
    try assumption.
  2:{ unfold shouldPredict in *. apply Z.ltb_lt in Hg. apply Z.ltb_lt. lia. }
  assert (Hd1 : decide false p1 = (true, ["LONG"])).
  { unfold decide. rewrite Hup, (gt0_not_lt0 _ Hup). reflexivity. }
  assert (Hd2 : decide true p2 = (false, ["EXIT"])).
  { unfold decide. rewrite Hdown, andb_false_r. reflexivity. }
  rewrite Hl, Hd1. cbn. rewrite Hd2. cbn.
  unfold signal_of. rewrite <- app_assoc. auto.
Qed.

Lemma enter_then_exit_witness :
  long_market
    (self (snd (calculate_signals (fst (day_after (-0.5))) market_event
                  (snd (calculate_signals (fst (day_after 0.5)) market_event
                          (mk_world (spy false 5 momentum_model) [] []))))))
  = false.
Proof.
  exact (proj2
    (enter_then_exit (fst (day_after 0.5)) (fst (day_after (-0.5)))
       market_event market_event
       (mk_world (spy false 5 momentum_model) [] [])
       "SPY" [] 0 0.5 0 0 (-0.5) 0 [] [] 50 (-50)
       eq_refl eq_refl eq_refl eq_refl eq_refl eq_refl eq_refl eq_refl
       eq_refl eq_refl eq_refl)).
Defined.

(** ** What a run keeps *)

Lemma step_same_configuration (s : Strategy) (bars : DataHandler)
    (event : Event) (w : World) :
  same_configuration s (self w) ->
  same_configuration s (self (snd (calculate_signals bars event w))).
Proof.
  unfold same_configuration. by_outcome bars event w; cbn; auto.
Qed.

(** X7.  Handling events never reassigns what construction set: after any
    run the strategy still has the symbol list of the data handler, the
    construction timestamp, the three model dates (10 January 2016, 31
    December 2017 and the test cutoff 1 January 2017), the fitted model, and
    a short flag that is False: the strategy never goes short and never
    refits. *)
Theorem run_keeps_configuration
    (b : Builders) (syms : list string) (utcnow : datetime)
    (s : Strategy) (log : list Call) (feed : list (DataHandler * Event)) :
  __init__ b syms utcnow [] = (Ok s, log) ->
  same_configuration s (self (snd (run feed (mk_world s [] log))))
  /\ symbol_list s = syms
  /\ datetime_now s = utcnow
  /\ model_start_date s = dt_datetime 2016 1 10
  /\ model_end_date s = dt_datetime 2017 12 31
  /\ model_start_test_date s = dt_datetime 2017 1 1
  /\ short_market s = false.
Proof.
  intros Hi. split.
  - apply (run_invariant (fun w => same_configuration s (self w))).
    + intros bars event w. apply step_same_configuration.
    + unfold same_configuration; cbn. repeat split.
  - revert Hi. unfold __init__, bind, ret.
    destruct (create_symbol_forecast_model b syms (dt_datetime 2016 1 10)
                (dt_datetime 2017 12 31) (dt_datetime 2017 1 1) [])
      as [[m|e] log']; [|discriminate].
    intros H; inversion H; subst; cbn. repeat split.
Qed.

Lemma run_keeps_configuration_witness :
  same_configuration (spy false 0 momentum_model)
    (self (snd (run eight_days
                  (mk_world (spy false 0 momentum_model) []
                     construction_log)))).
Proof.
  exact (proj1
    (run_keeps_configuration momentum_builders ["SPY"] construction_time
       (spy false 0 momentum_model) construction_log eight_days eq_refl)).
Defined.

(** X8.  Every signal put during a run is built the same way: strategy id 1,
    the first symbol of the data handler's symbol list (the other symbols
    are never traded), strength 1.0, and direction LONG or EXIT. *)
Theorem signals_are_for_first_symbol
    (b : Builders) (sym : string) (tl : list string) (utcnow : datetime)
    (s : Strategy) (log : list Call) (feed : list (DataHandler * Event))
    (sg : SignalEvent) :
  __init__ b (sym :: tl) utcnow [] = (Ok s, log) ->
  In sg (events (snd (run feed (mk_world s [] log)))) ->
  strategy_signal sym sg.
Proof.
  intros Hi Hin.
  destruct (init_ok _ _ _ _ _ Hi) as (Hs & _).
  assert (Hinv : symbol_list
                   (self (snd (run feed (mk_world s [] log)))) = sym :: tl
                 /\ Forall (strategy_signal sym)
                      (events (snd (run feed (mk_world s [] log))))).
  { apply (run_invariant
             (fun w => symbol_list (self w) = sym :: tl
                       /\ Forall (strategy_signal sym) (events w))).
    - intros bars event w [Hsym Hall].
      by_outcome bars event w; cbn; try (split; assumption).
      split; [assumption|].
      apply Forall_app. split; [assumption|].
      assert (sym0 = sym) by congruence. subst sym0.
      destruct (decide_cases (long_market (self w)) p)
        as [Hd | [[_ Hd] | [_ Hd]]]; rewrite Hd; cbn;
        repeat apply Forall_cons; try apply Forall_nil;
        unfold strategy_signal; cbn; auto 6.
    - cbn. split; [exact Hs | constructor]. }
  destruct Hinv as [_ Hall]. rewrite Forall_forall in Hall.
  apply Hall, Hin.
Qed.

Lemma signals_are_for_first_symbol_witness :
  strategy_signal "SPY"
    (mk_SignalEvent 1 "SPY" construction_time "EXIT" 1.0).
Proof.
  refine (signals_are_for_first_symbol momentum_builders "SPY" []
            construction_time _ _ eight_days
            (mk_SignalEvent 1 "SPY" construction_time "EXIT" 1.0)
            eq_refl _).
  vm_compute. right. left. reflexivity.
Defined.

(** X9.  The position flag and the queue agree in every reachable world: the
    strategy is long exactly when it has put an odd number of signals, that
    is when the last signal it put is LONG; it is flat when it has put none
    or the last one is EXIT. *)
Theorem position_follows_last_signal (w : World) :
  reachable w ->
  long_market (self w) = Nat.odd (List.length (events w))
  /\ last (directions (events w)) "EXIT"
     = (if long_market (self w) then "LONG" else "EXIT").
Proof.
  intros Hr. split.
  - assert (Ha : alternating w).
    { apply reachable_invariant; [exact alternating_step | | exact Hr].
      intros b syms utcnow s log Hi.
      destruct (init_ok _ _ _ _ _ Hi) as (_ & _ & Hl & _ & _).
      split; [reflexivity | exact Hl]. }
    apply Ha.
  - revert w Hr.
    apply (reachable_invariant
             (fun w => last (directions (events w)) "EXIT"
                       = (if long_market (self w) then "LONG" else "EXIT"))).
    + intros bars event w Hw.
      by_outcome bars event w; cbn; try exact Hw.
      destruct (decide_cases (long_market (self w)) p)
        as [Hd | [[_ Hd] | [_ Hd]]]; rewrite Hd; cbn.
      * rewrite app_nil_r. exact Hw.
      * unfold directions. rewrite map_app. cbn. apply last_last.
      * unfold directions. rewrite map_app. cbn. apply last_last.
    + intros b syms utcnow s log Hi.
      destruct (init_ok _ _ _ _ _ Hi) as (_ & _ & Hl & _ & _).
      cbn. rewrite Hl. reflexivity.
Qed.

Lemma position_follows_last_signal_witness :
  long_market
    (self (snd (run eight_days
                  (mk_world (spy false 0 momentum_model) []
                     construction_log))))
  = Nat.odd
      (List.length
         (events
            (snd (run eight_days
                    (mk_world (spy false 0 momentum_model) []
                       construction_log))))).
Proof.
  exact (proj1 (position_follows_last_signal _ eight_days_reachable)).
Defined.

(** ** Warm-up *)

Lemma init_has_symbol (b : Builders) (syms : list string) (utcnow : datetime)
    (s : Strategy) (log : list Call) :
  __init__ b syms utcnow [] = (Ok s, log) ->
  exists sym tl, syms = sym :: tl /\ symbol_list s = sym :: tl.
Proof.
  intros Hi. destruct (init_ok _ _ _ _ _ Hi) as (Hs & _).
  revert Hi. unfold __init__, bind, ret.
  destruct (create_symbol_forecast_model b syms (dt_datetime 2016 1 10)
              (dt_datetime 2017 12 31) (dt_datetime 2017 1 1) [])
    as [[m|e] log'] eqn:Hc; [|discriminate].
  intros _. apply create_symbol_forecast_model_ok in Hc.
  destruct Hc as (sym & tl & _ & _ & _ & Hsyms & _).
  exists sym, tl. split; [exact Hsyms | congruence].
Qed.

Lemma warm_up_run (feed : list (DataHandler * Event)) :
  forall w,
    symbol_list (self w) <> [] ->
    bar_index (self w) + market_count feed <= 5 ->
    fst (run feed w) = Ok tt
    /\ bar_index (self (snd (run feed w)))
       = bar_index (self w) + market_count feed
    /\ symbol_list (self (snd (run feed w))) = symbol_list (self w)
    /\ events (snd (run feed w)) = events w
    /\ calls (snd (run feed w)) = calls w.
Proof.
  induction feed as [|[bars event] rest IH]; intros w Hs Hle.
  - cbn [run]. unfold ret, market_count; cbn.
    repeat split; try reflexivity; lia.
  - rewrite run_cons. rewrite market_count_cons in *.
    assert (0 <= market_count rest) by (unfold market_count; lia).
    destruct (symbol_list (self w)) as [|sym tl] eqn:Hsym; [congruence|].
    destruct (is_market event) eqn:Hm.
    + rewrite (step_warm_up bars event w sym tl) by
        (try assumption; unfold shouldPredict; apply Z.ltb_ge; lia).
      cbn [fst snd].
      edestruct (IH (mk_world
                       (set_bar_index (bar_index (self w) + 1) (self w))
                       (events w) (calls w)))
        as (H1 & H2 & H3 & H4 & H5);
        [cbn; congruence
        | cbn [self bar_index set_bar_index]; lia |].
      cbn [self bar_index set_bar_index symbol_list events calls] in *.
      repeat split; try assumption; try congruence. lia.
    + rewrite step_not_market, Hsym by assumption. cbn [fst snd].
      destruct (IH w) as (H1 & H2 & H3 & H4 & H5); [congruence | lia |].
      repeat split; try assumption; try congruence; lia.
Qed.

(** X10.  A strategy that was constructed never raises during warm-up:
    whatever the data handlers hold or raise, a feed with at most 5 market
    events is handled to its end without an exception, and the counter then
    equals the number of market events seen. *)
Theorem warm_up_never_raises
    (b : Builders) (syms : list string) (utcnow : datetime)
    (s : Strategy) (log : list Call) (feed : list (DataHandler * Event)) :
  __init__ b syms utcnow [] = (Ok s, log) ->
  market_count feed <= 5 ->
  fst (run feed (mk_world s [] log)) = Ok tt
  /\ bar_index (self (snd (run feed (mk_world s [] log))))
     = market_count feed.
Proof.
  intros Hi Hle.
  destruct (init_has_symbol _ _ _ _ _ Hi) as (sym & tl & _ & Hs).
  destruct (init_ok _ _ _ _ _ Hi) as (_ & _ & _ & Hb & _).
  destruct (warm_up_run feed (mk_world s [] log)) as (H1 & H2 & _).
  - cbn. congruence.
  - cbn. lia.
  - cbn in H2. split; [exact H1 | lia].
Qed.

Lemma warm_up_never_raises_witness :
  fst (run (repeat (fun _ _ _ => Raise (Raised "KeyError"), market_event) 5)
         (mk_world (spy false 0 (constant_model 1)) [] construction_log))
  = Ok tt.
Proof.
  refine (proj1
    (warm_up_never_raises (constant_builders 1) ["SPY"] construction_time
       _ _ (repeat (fun _ _ _ => Raise (Raised "KeyError"), market_event) 5)
       eq_refl _)).
  vm_compute. discriminate.
Defined.

(** X11.  The gate opens on the sixth market event exactly: after a feed with
    5 market events (and any number of other events) the next market event
    asks the data handler for the 3 latest returns of the first symbol, the
    first question the strategy ever asks it. *)
Theorem sixth_market_event_asks_for_returns
    (b : Builders) (sym : string) (tl : list string) (utcnow : datetime)
    (s : Strategy) (log : list Call) (feed : list (DataHandler * Event))
    (bars : DataHandler) (event : Event) :
  __init__ b (sym :: tl) utcnow [] = (Ok s, log) ->
  market_count feed = 5 ->
  is_market event = true ->
  filter is_query (calls (snd (run feed (mk_world s [] log)))) = []
  /\ exists cs,
       calls (snd (calculate_signals bars event
                     (snd (run feed (mk_world s [] log)))))
       = calls (snd (run feed (mk_world s [] log)))
         ++ Call_get_latest_bars_values sym "returns" 3 :: cs.
Proof.
  intros Hi Hc Hm.
  destruct (init_ok _ _ _ _ _ Hi) as (Hs & _ & _ & Hb & Hq).
  destruct (warm_up_run feed (mk_world s [] log))
    as (_ & Hbar & Hsym & _ & Hcalls); [cbn; congruence | cbn; lia |].
  cbn in Hbar, Hsym, Hcalls.
  split; [rewrite Hcalls; exact Hq|].
  remember (snd (run feed (mk_world s [] log))) as w5 eqn:Hw5.
  clear Hw5.
  assert (Hg : shouldPredict (bar_index (self w5) + 1) = true).
  { rewrite Hbar, Hb, Hc. reflexivity. }
  assert (Hs5 : symbol_list (self w5) = sym :: tl) by congruence.
  pose proof (calculate_signals_outcome bars event w5) as Hout.
  destruct (calculate_signals bars event w5) as [r w6].
  inversion Hout; subst; cbn [snd calls counted]; try congruence;
    match goal with
    | H : symbol_list (self w5) = ?x :: _ |- _ =>
        assert (x = sym) by congruence; subst x
    end;
    eexists; reflexivity.
Qed.

Lemma sixth_market_event_asks_for_returns_witness :
  exists cs,
    calls (snd (calculate_signals two_returns market_event
                  (snd (run (market_days 5)
                          (mk_world (spy false 0 (constant_model 1)) []
                             construction_log)))))
    = calls (snd (run (market_days 5)
                    (mk_world (spy false 0 (constant_model 1)) []
                       construction_log)))
      ++ Call_get_latest_bars_values "SPY" "returns" 3 :: cs.
Proof.
  exact (proj2
    (sixth_market_event_asks_for_returns (constant_builders 1) "SPY" []
       construction_time _ _ (market_days 5) two_returns market_event
       eq_refl eq_refl eq_refl)).
Defined.

(** ** Construction that fails *)

(** X12.  Construction stops at the first failure and asks nothing further:
    without a symbol it raises [IndexError] before any collaborator is
    called; when the lagged series cannot be built the builder's exception
    leaves [__init__] and the classifier is never fitted; when fitting raises,
    that exception leaves [__init__].  In each case no strategy is
    returned. *)
Theorem construction_stops_at_first_failure
    (b : Builders) (sym : string) (tl : list string) (utcnow : datetime) :
  __init__ b [] utcnow [] = (Raise IndexError, [])
  /\ (forall e,
        create_lagged_series b sym (dt_datetime 2016 1 10)
          (dt_datetime 2017 12 31) 5 = Raise e ->
        __init__ b (sym :: tl) utcnow []
        = (Raise e,
           [Call_create_lagged_series sym (dt_datetime 2016 1 10)
              (dt_datetime 2017 12 31) 5]))
  /\ (forall snpret X y e,
        create_lagged_series b sym (dt_datetime 2016 1 10)
          (dt_datetime 2017 12 31) 5 = Ok snpret ->
        select_columns ["Lag1"; "Lag2"] snpret = Ok X ->
        select_columns ["Direction"] snpret = Ok y ->
        fit b (index_lt (dt_datetime 2017 1 1) X)
          (index_lt (dt_datetime 2017 1 1) y) = Raise e ->
        __init__ b (sym :: tl) utcnow []
        = (Raise e,
           [Call_create_lagged_series sym (dt_datetime 2016 1 10)
              (dt_datetime 2017 12 31) 5;
            Call_fit (index_lt (dt_datetime 2017 1 1) X)
              (index_lt (dt_datetime 2017 1 1) y)])).
Proof.
  split; [reflexivity|].
  unfold __init__, create_symbol_forecast_model, bind, lift, log_call, ret,
    getitem.
  cbn [nth_error].
  split.
  - intros e He. rewrite He. reflexivity.
  - intros snpret X y e Hc HX Hy Hf. rewrite Hc, HX, Hy, Hf. reflexivity.
Qed.

Lemma construction_stops_at_first_failure_witness :
  __init__ no_data_builders ["SPY"] construction_time []
  = (Raise (Raised "FileNotFoundError"),
     [Call_create_lagged_series "SPY" (dt_datetime 2016 1 10)
        (dt_datetime 2017 12 31) 5])
  /\ fst (__init__ no_fit_builders ["SPY"] construction_time [])
     = Raise (Raised "ValueError").
Proof.
  split.
  - exact (proj1 (proj2
      (construction_stops_at_first_failure no_data_builders "SPY" []
         construction_time)) _ eq_refl).
  - exact (f_equal fst (proj2 (proj2
      (construction_stops_at_first_failure no_fit_builders "SPY" []
         construction_time)) _ _ _ _ eq_refl eq_refl eq_refl eq_refl)).
Defined.

(** X13.  Construction needs the columns Lag1, Lag2 and Direction of the
    lagged series: when one of them is missing the column selection raises
    [KeyError], that exception leaves [__init__], and the classifier is never
    fitted. *)
Theorem construction_needs_its_columns
    (b : Builders) (sym : string) (tl : list string) (utcnow : datetime)
    (snpret : DataFrame) :
  create_lagged_series b sym (dt_datetime 2016 1 10)
    (dt_datetime 2017 12 31) 5 = Ok snpret ->
  column_position "Lag1" (columns snpret) = None
  \/ column_position "Lag2" (columns snpret) = None
  \/ column_position "Direction" (columns snpret) = None ->
  exists k,
    __init__ b (sym :: tl) utcnow []
    = (Raise (KeyError k),
       [Call_create_lagged_series sym (dt_datetime 2016 1 10)
          (dt_datetime 2017 12 31) 5]).
Proof.
  intros Hc Hmiss.
  unfold __init__, create_symbol_forecast_model, bind, lift, log_call, ret,
    getitem.
  cbn [nth_error]. rewrite Hc. unfold select_columns.
  cbn [column_positions].
  destruct (column_position "Lag1" (columns snpret)) as [i|] eqn:H1.
  2:{ exists "Lag1". reflexivity. }
  destruct (column_position "Lag2" (columns snpret)) as [j|] eqn:H2.
  2:{ exists "Lag2". reflexivity. }
  destruct (column_position "Direction" (columns snpret)) as [k|] eqn:H3.
  { destruct Hmiss as [H | [H | H]]; discriminate H. }
  exists "Direction". reflexivity.
Qed.

Lemma construction_needs_its_columns_witness :
  exists k,
    __init__ (mk_builders (fun _ _ _ _ => Ok no_direction)
                (fun _ _ => Ok momentum_model))
      ["SPY"] construction_time []
    = (Raise (KeyError k),
       [Call_create_lagged_series "SPY" (dt_datetime 2016 1 10)
          (dt_datetime 2017 12 31) 5]).
Proof.
  exact (construction_needs_its_columns
           (mk_builders (fun _ _ _ _ => Ok no_direction)
              (fun _ _ => Ok momentum_model))
           "SPY" [] construction_time no_direction eq_refl
           (or_intror (or_intror eq_refl))).
Defined.

(** ** The training data *)





(** ** The split by date *)

Lemma datetime_lt_iff (a b : datetime) :
  datetime_lt a b = true
  <-> year a < year b
      \/ (year a = year b
          /\ (month a < month b
              \/ (month a = month b
                  /\ (day a < day b
                      \/ (day a = day b
                          /\ microsecond_of_day a
                             < microsecond_of_day b))))).
Proof.
  unfold datetime_lt, datetime_compare, lex.
  destruct (Z.compare_spec (year a) (year b)),
    (Z.compare_spec (month a) (month b)),
    (Z.compare_spec (day a) (day b)),
    (Z.compare_spec (microsecond_of_day a) (microsecond_of_day b));
    split; intros H3; try discriminate H3; try reflexivity; lia.
Qed.

Lemma datetime_ge_iff (a b : datetime) :
  datetime_ge a b = true <-> datetime_lt a b = false.
Proof.
  rewrite datetime_ge_not_lt. apply negb_true_iff.
Qed.

Lemma datetime_lt_ge_trans (a d b : datetime) :
  datetime_lt a d = true -> datetime_ge b d = true ->
  datetime_lt a b = true.
Proof.
  rewrite datetime_ge_iff, <- not_true_iff_false, !datetime_lt_iff. lia.
Qed.

Lemma datetime_ge_trans (x h d : datetime) :
  datetime_ge h d = true -> datetime_ge x h = true ->
  datetime_ge x d = true.
Proof.
  rewrite !datetime_ge_iff, <- !not_true_iff_false, !datetime_lt_iff. lia.
Qed.

(** X15.  The split by date lets no later day into the training data: every
    row of the training partition is dated strictly before every row of the
    test partition. *)
Theorem training_rows_precede_test_rows
    (d : datetime) (frame : DataFrame) (r1 r2 : datetime * list float) :
  In r1 (rows (index_lt d frame)) ->
  In r2 (rows (index_ge d frame)) ->
  datetime_lt (fst r1) (fst r2) = true.
Proof.
  unfold index_lt, index_ge; cbn [rows]. intros H1 H2.
  apply filter_In in H1, H2.
  apply (datetime_lt_ge_trans _ d); [apply H1 | apply H2].
Qed.

Lemma training_rows_precede_test_rows_witness :
  datetime_lt (dt_datetime 2016 12 30) (dt_datetime 2017 1 3) = true.
Proof.
  refine (training_rows_precede_test_rows (dt_datetime 2017 1 1) three_days
            (dt_datetime 2016 12 30, [-1.5; 0.5; -0.25; 0.125; 1; -1; -1]%float)
            (dt_datetime 2017 1 3, [0.75; -1.5; 0.5; -0.25; 0.125; 1; 1]%float)
            _ _).
  - cbn. right. left. reflexivity.
  - cbn. left. reflexivity.
Defined.

Lemma filter_none {A} (f : A -> bool) (l : list A) :
  (forall x, In x l -> f x = false) -> filter f l = [].
Proof.
  induction l as [|a l IH]; cbn; intros H; [reflexivity|].
  rewrite (H a) by auto. apply IH. auto.
Qed.

Lemma filter_all {A} (f : A -> bool) (l : list A) :
  (forall x, In x l -> f x = true) -> filter f l = l.
Proof.
  induction l as [|a l IH]; cbn; intros H; [reflexivity|].
  rewrite (H a) by auto. f_equal. apply IH. auto.
Qed.

(** X16.  The split by date keeps every row once: the two partitions
    together have as many rows as the frame, and when the frame is in date
    order the training partition is its beginning and the test partition the
    rest, both in the order of the frame. *)
Theorem split_keeps_every_row (d : datetime) (frame : DataFrame) :
  (List.length (rows (index_lt d frame))
   + List.length (rows (index_ge d frame))
   = List.length (rows frame))%nat
  /\ (in_date_order (rows frame) = true ->
      rows frame = rows (index_lt d frame) ++ rows (index_ge d frame)).
Proof.
  unfold index_lt, index_ge; cbn [rows]. split.
  - induction (rows frame) as [|r rs IH]; cbn; [reflexivity|].
    rewrite datetime_ge_not_lt.
    destruct (datetime_lt (fst r) d); cbn; lia.
  - induction (rows frame) as [|r rs IH]; cbn; [reflexivity|].
    intros Ho. apply andb_prop in Ho. destruct Ho as [Hall Ho].
    rewrite datetime_ge_not_lt.
    destruct (datetime_lt (fst r) d) eqn:Hr; cbn.
    + f_equal. apply IH, Ho.
    + rewrite forallb_forall in Hall.
      assert (Hge : forall x, In x rs -> datetime_ge (fst x) d = true).
      { intros x Hx. apply (datetime_ge_trans _ (fst r)).
        - rewrite datetime_ge_not_lt, Hr. reflexivity.
        - apply Hall, Hx. }
      rewrite (filter_none (fun x => datetime_lt (fst x) d)).
      * cbn. f_equal. symmetry. apply filter_all. exact Hge.
      * intros x Hx. apply datetime_ge_iff, Hge, Hx.
Qed.

Lemma split_keeps_every_row_witness :
  rows three_days
  = rows (index_lt (dt_datetime 2017 1 1) three_days)
    ++ rows (index_ge (dt_datetime 2017 1 1) three_days).
Proof.
  exact (proj2 (split_keeps_every_row (dt_datetime 2017 1 1) three_days)
           eq_refl).
Defined.
